(** * Bus Booking System: a shallow embedding of [BusBookingSystem.cpp]

    The program keeps one global [std::vector<Bus> busList].  Every menu
    entry of [main] is a procedure that reads its operands from [std::cin],
    prints a message and possibly updates [busList].  The embedding passes
    [busList] explicitly; the values read from [std::cin] are arguments of
    the procedure (an argument a run never reads is ignored, as the code
    returns before the corresponding prompt); the message printed becomes
    the result.  [std::vector::operator[]] outside the vector is undefined
    behaviour: indexing returns an [option], and a procedure that would
    index out of range returns [None]. *)

From Stdlib Require Import ZArith String Ascii List Lia.
From Stdlib Require Import Floats.PrimFloat.
From stdpp Require Import base option list strings.

Open Scope string_scope.
Open Scope Z_scope.

(** ** Data model *)

(** [struct Seat]: fares are C++ [double]s that are stored and printed,
    never computed with. *)
Record Seat : Type := mkSeat {
  passengerName : string;
  fare : float
}.

(** [Seat() : passengerName("Empty"), fare(0.0)] *)
Definition Seat_default : Seat := mkSeat "Empty" 0%float.

Definition set_fare (seat : Seat) (f : float) : Seat :=
  mkSeat (passengerName seat) f.

Definition set_passengerName (seat : Seat) (name : string) : Seat :=
  mkSeat name (fare seat).

(** [class Bus] *)
Record Bus : Type := mkBus {
  busNumber : string;
  driverName : string;
  arrivalTime : string;
  departureTime : string;
  from : string;
  to : string;
  seats : list (list Seat)
}.

Definition set_busNumber (b : Bus) (s : string) : Bus :=
  mkBus s (driverName b) (arrivalTime b) (departureTime b) (from b) (to b) (seats b).
Definition set_driverName (b : Bus) (s : string) : Bus :=
  mkBus (busNumber b) s (arrivalTime b) (departureTime b) (from b) (to b) (seats b).
Definition set_arrivalTime (b : Bus) (s : string) : Bus :=
  mkBus (busNumber b) (driverName b) s (departureTime b) (from b) (to b) (seats b).
Definition set_departureTime (b : Bus) (s : string) : Bus :=
  mkBus (busNumber b) (driverName b) (arrivalTime b) s (from b) (to b) (seats b).
Definition set_from (b : Bus) (s : string) : Bus :=
  mkBus (busNumber b) (driverName b) (arrivalTime b) (departureTime b) s (to b) (seats b).
Definition set_to (b : Bus) (s : string) : Bus :=
  mkBus (busNumber b) (driverName b) (arrivalTime b) (departureTime b) (from b) s (seats b).
Definition set_seats (b : Bus) (g : list (list Seat)) : Bus :=
  mkBus (busNumber b) (driverName b) (arrivalTime b) (departureTime b) (from b) (to b) g.

(** The default fare written by the constructor. *)
Definition default_fare : float := 300%float.

(** [Bus::Bus() : seats(8, std::vector<Seat>(4))], then the two range-for
    loops assigning [seat.fare = 300.0] to every seat of every row.  The
    string members are default-initialised to the empty string. *)
Definition Bus_new : Bus :=
  let seats0 := replicate 8 (replicate 4 Seat_default) in
  mkBus "" "" "" "" "" ""
        (map (fun row => map (fun seat => set_fare seat default_fare) row) seats0).

(** ** Vector indexing *)

(** [v[i]] with an [int] index: defined only for [0 <= i < v.size()]. *)
Definition vec_at {A : Type} (v : list A) (i : Z) : option A :=
  if i <? 0 then None else v !! Z.to_nat i.

(** [v[i] = x], same range. *)
Definition vec_set {A : Type} (v : list A) (i : Z) (x : A) : option (list A) :=
  match vec_at v i with
  | Some _ => Some (<[Z.to_nat i := x]> v)
  | None => None
  end.

(** [seats[row][col]] read. *)
Definition seat_at (g : list (list Seat)) (row col : Z) : option Seat :=
  match vec_at g row with
  | Some r => vec_at r col
  | None => None
  end.

(** [seats[row][col].passengerName = name]. *)
Definition seat_assign_name (g : list (list Seat)) (row col : Z) (name : string)
  : option (list (list Seat)) :=
  match vec_at g row with
  | Some r =>
      match vec_at r col with
      | Some seat =>
          match vec_set r col (set_passengerName seat name) with
          | Some r' => vec_set g row r'
          | None => None
          end
      | None => None
      end
  | None => None
  end.

(** [int row = (seatNumber - 1) / 4; int col = (seatNumber - 1) % 4;]
    C++ integer division truncates towards zero, and [%] takes the sign of
    the dividend: [Z.quot] and [Z.rem]. *)
Definition seat_row (seatNumber : Z) : Z := Z.quot (seatNumber - 1) 4.
Definition seat_col (seatNumber : Z) : Z := Z.rem (seatNumber - 1) 4.

(** [Bus::getSeat(int seatNumber)] *)
Definition getSeat (b : Bus) (seatNumber : Z) : option Seat :=
  let row := seat_row seatNumber in
  let col := seat_col seatNumber in
  seat_at (seats b) row col.

(** [Bus::getBusNumber], [Bus::matchesRoute] *)
Definition getBusNumber (b : Bus) : string := busNumber b.

Definition matchesRoute (b : Bus) (origin dest : string) : bool :=
  (from b =? origin)%string && (to b =? dest)%string.

(** The guard repeated at every string prompt: [s == "0" || s.empty()]. *)
Definition cancelled (s : string) : bool :=
  (s =? "0")%string || (s =? "")%string.

(** ** [Bus::install] *)

(** The six lines the installation prompts for, in prompt order. *)
Record InstallInput : Type := mkInstallInput {
  in_busNumber : string;
  in_driverName : string;
  in_arrivalTime : string;
  in_departureTime : string;
  in_from : string;
  in_to : string
}.

Inductive InstallMsg : Type :=
| InstallationCancelled
| BusInstalled.

(** Each [std::getline] stores into the member, the guard tests the member,
    and a cancelled prompt clears the members read before it. *)
Definition install (this : Bus) (inp : InstallInput) : Bus * InstallMsg :=
  let this := set_busNumber this (in_busNumber inp) in
  if cancelled (busNumber this) then
    (set_busNumber this "", InstallationCancelled)
  else
  let this := set_driverName this (in_driverName inp) in
  if cancelled (driverName this) then
    (set_busNumber this "", InstallationCancelled)
  else
  let this := set_arrivalTime this (in_arrivalTime inp) in
  if cancelled (arrivalTime this) then
    (set_driverName (set_busNumber this "") "", InstallationCancelled)
  else
  let this := set_departureTime this (in_departureTime inp) in
  if cancelled (departureTime this) then
    (set_arrivalTime (set_driverName (set_busNumber this "") "") "",
     InstallationCancelled)
  else
  let this := set_from this (in_from inp) in
  if cancelled (from this) then
    (set_departureTime
       (set_arrivalTime (set_driverName (set_busNumber this "") "") "") "",
     InstallationCancelled)
  else
  let this := set_to this (in_to inp) in
  if cancelled (to this) then
    (set_from
       (set_departureTime
          (set_arrivalTime (set_driverName (set_busNumber this "") "") "") "") "",
     InstallationCancelled)
  else
    (this, BusInstalled).

(** ** Lookup in [busList] *)

(** [std::find_if(busList.begin(), busList.end(),
                  [&](const Bus &b){ return b.getBusNumber() == number; })]:
    the position of the first bus whose number is [number], or [None] for
    [busList.end()]. *)
Fixpoint find_if (number : string) (busList : list Bus) : option nat :=
  match busList with
  | [] => None
  | b :: rest =>
      if (getBusNumber b =? number)%string then Some 0%nat
      else match find_if number rest with
           | Some i => Some (S i)
           | None => None
           end
  end.

(** ** [Bus::allotment] *)

Inductive AllotmentMsg : Type :=
| AllotCancelled                       (* "Operation cancelled." *)
| AllotBusNotFound                     (* "Bus not found. Please try again." *)
| AllotInvalidInput                    (* "Invalid input. Operation cancelled." *)
| AllotInvalidSeat                     (* "Invalid seat number. ..." *)
| AllotAlreadyReserved (name : string) (* "That seat is already reserved by ..." *)
| AllotReserved (seatNumber : Z) (passenger : string) (cost : float).

(** [main] calls [allotment] and [cancelSeat] on a temporary [Bus] whose
    members they never use: both work on the global [busList].
    [number] is the line read at the first prompt; [seatIn] is the outcome
    of [std::cin >> seatNumber] ([None] when the extraction fails, [Some n]
    with the [int] stored otherwise); [passenger] is the line read at the
    last prompt.  The result is [None] when a seat access is out of range. *)
Definition allotment (busList : list Bus) (number : string) (seatIn : option Z)
    (passenger : string) : option (list Bus * AllotmentMsg) :=
  if cancelled number then Some (busList, AllotCancelled) else
  match find_if number busList with
  | None => Some (busList, AllotBusNotFound)
  | Some it =>
      match seatIn with
      | None => Some (busList, AllotInvalidInput)
      | Some seatNumber =>
          if seatNumber =? 0 then Some (busList, AllotCancelled) else
          if (seatNumber <? 1) || (seatNumber >? 32) then
            Some (busList, AllotInvalidSeat)
          else
          let row := seat_row seatNumber in
          let col := seat_col seatNumber in
          b ← busList !! it;
          seat ← seat_at (seats b) row col;
          if negb (passengerName seat =? "Empty")%string then
            Some (busList, AllotAlreadyReserved (passengerName seat))
          else
          if cancelled passenger then Some (busList, AllotCancelled) else
          g ← seat_assign_name (seats b) row col passenger;
          let b' := set_seats b g in
          cost ← fare <$> seat_at (seats b') row col;
          Some (<[it := b']> busList, AllotReserved seatNumber passenger cost)
      end
  end.

(** ** [Bus::cancelSeat] *)

Inductive CancelMsg : Type :=
| CancelCancelled        (* "Operation cancelled." *)
| CancelBusNotFound      (* "Bus not found." *)
| CancelInvalidInput     (* "Invalid input. Operation cancelled." *)
| CancelInvalidSeat      (* "Invalid seat number. ..." *)
| CancelAlreadyEmpty     (* "This seat is already empty." *)
| CancelAborted          (* "Cancellation aborted." *)
| CancelDone (seatNumber : Z).

(** [tolower] in the "C" locale. *)
Definition tolower (c : ascii) : ascii :=
  let n := nat_of_ascii c in
  if (65 <=? n)%nat && (n <=? 90)%nat then ascii_of_nat (n + 32) else c.

(** [confirm] is the character read by [std::cin >> confirm]. *)
Definition cancelSeat (busList : list Bus) (number : string) (seatIn : option Z)
    (confirm : ascii) : option (list Bus * CancelMsg) :=
  if cancelled number then Some (busList, CancelCancelled) else
  match find_if number busList with
  | None => Some (busList, CancelBusNotFound)
  | Some it =>
      match seatIn with
      | None => Some (busList, CancelInvalidInput)
      | Some seatNumber =>
          if seatNumber =? 0 then Some (busList, CancelCancelled) else
          if (seatNumber <? 1) || (seatNumber >? 32) then
            Some (busList, CancelInvalidSeat)
          else
          let row := seat_row seatNumber in
          let col := seat_col seatNumber in
          b ← busList !! it;
          seat ← seat_at (seats b) row col;
          if (passengerName seat =? "Empty")%string then
            Some (busList, CancelAlreadyEmpty)
          else
          if negb (Ascii.eqb (tolower confirm) "y"%char) then
            Some (busList, CancelAborted)
          else
          g ← seat_assign_name (seats b) row col "Empty";
          Some (<[it := set_seats b g]> busList, CancelDone seatNumber)
      end
  end.

(** ** [Bus::show] and [Bus::printBasicInfo] *)

(** [for(int i = start; i < start + n; ++i) body], threading the variables
    the body updates; [None] as soon as one iteration is undefined. *)
Fixpoint for_loop {St : Type} (body : Z -> St -> option St) (i : Z) (n : nat)
    (s : St) : option St :=
  match n with
  | O => Some s
  | S n' =>
      match body i s with
      | Some s' => for_loop body (i + 1) n' s'
      | None => None
      end
  end.

(** One line of the seat map: ["  Seat <index>: <text> (Rs. <fare>)"]. *)
Record SeatLine : Type := mkSeatLine {
  line_index : Z;
  line_text : string;
  line_fare : float
}.

(** The local variables of [show] and the lines printed so far. *)
Record ShowState : Type := mkShowState {
  seatIndex : Z;
  emptyCount : Z;
  printed : list SeatLine
}.

Definition show_seat (g : list (list Seat)) (i j : Z) (st : ShowState)
  : option ShowState :=
  seat ← seat_at g i j;
  if (passengerName seat =? "Empty")%string then
    Some (mkShowState (seatIndex st + 1) (emptyCount st + 1)
            (printed st ++ [mkSeatLine (seatIndex st) "Empty" (fare seat)]))
  else
    Some (mkShowState (seatIndex st + 1) (emptyCount st)
            (printed st ++ [mkSeatLine (seatIndex st) (passengerName seat) (fare seat)])).

Definition show_row (g : list (list Seat)) (i : Z) (st : ShowState)
  : option ShowState :=
  for_loop (show_seat g i) 0 4 st.

Record DetailView : Type := mkDetailView {
  view_busNumber : string;
  view_driver : string;
  view_arrival : string;
  view_departure : string;
  view_from : string;
  view_to : string;
  view_seats : list SeatLine;
  view_empty : Z          (* "Total empty seats: " *)
}.

Definition show (b : Bus) : option DetailView :=
  st ← for_loop (show_row (seats b)) 0 8 (mkShowState 1 0 []);
  Some (mkDetailView (busNumber b) (driverName b) (arrivalTime b)
          (departureTime b) (from b) (to b) (printed st) (emptyCount st)).

Record BasicView : Type := mkBasicView {
  basic_busNumber : string;
  basic_driver : string;
  basic_arrival : string;
  basic_departure : string;
  basic_route : string
}.

Definition printBasicInfo (b : Bus) : BasicView :=
  mkBasicView (busNumber b) (driverName b) (arrivalTime b) (departureTime b)
              (from b ++ " -> " ++ to b).

(** ** [showAllBuses] and [searchBusesByRoute] *)

Inductive ListingMsg : Type :=
| NoBusesAvailable
| Listing (views : list BasicView).

(** The range-for of [showAllBuses], skipping buses with an empty number. *)
Fixpoint showAll_loop (busList : list Bus) (out : list BasicView) : list BasicView :=
  match busList with
  | [] => out
  | b :: rest =>
      if (getBusNumber b =? "")%string then showAll_loop rest out
      else showAll_loop rest (out ++ [printBasicInfo b])
  end.

Definition showAllBuses (busList : list Bus) : ListingMsg :=
  match busList with
  | [] => NoBusesAvailable
  | _ => Listing (showAll_loop busList [])
  end.

Inductive SearchMsg : Type :=
| SearchNoBuses                                   (* "No buses available." *)
| SearchCancelled                                 (* "Search cancelled." *)
| SearchNoMatch (origin destination : string)     (* "No matching buses found ..." *)
| SearchFound (views : list BasicView).

(** The range-for of [searchBusesByRoute]: the flag [foundAny] and the
    summaries printed so far. *)
Fixpoint search_loop (origin destination : string) (busList : list Bus)
    (foundAny : bool) (out : list BasicView) : bool * list BasicView :=
  match busList with
  | [] => (foundAny, out)
  | b :: rest =>
      if matchesRoute b origin destination then
        search_loop origin destination rest true (out ++ [printBasicInfo b])
      else
        search_loop origin destination rest foundAny out
  end.

Definition searchBusesByRoute (busList : list Bus) (origin destination : string)
  : SearchMsg :=
  match busList with
  | [] => SearchNoBuses
  | _ =>
      if cancelled origin then SearchCancelled else
      if cancelled destination then SearchCancelled else
      let '(foundAny, out) := search_loop origin destination busList false [] in
      if negb foundAny then SearchNoMatch origin destination
      else SearchFound out
  end.

(** The summaries a search prints, whatever message ends it. *)
Definition search_views (m : SearchMsg) : list BasicView :=
  match m with
  | SearchFound views => views
  | _ => []
  end.

(** ** The menu of [main] *)

(** A menu choice together with the inputs its case may read.  Choice 7
    leaves the loop and any other number only prints a message; neither
    touches [busList]. *)
Inductive Choice : Type :=
| InstallNewBus (inp : InstallInput)                                   (* 1 *)
| ReserveSeat (number : string) (seatIn : option Z) (passenger : string) (* 2 *)
| ShowBusDetails (number : string)                                     (* 3 *)
| ShowAllBuses                                                         (* 4 *)
| CancelSeat (number : string) (seatIn : option Z) (confirm : ascii)   (* 5 *)
| SearchByRoute (origin destination : string).                         (* 6 *)

(** [case 1]: a fresh [Bus] is installed and pushed only when its number
    is not empty afterwards. *)
Definition main_install (busList : list Bus) (inp : InstallInput) : list Bus :=
  let newBus := fst (install Bus_new inp) in
  if negb (getBusNumber newBus =? "")%string then busList ++ [newBus]
  else busList.

(** [case 3] *)
Definition main_show (busList : list Bus) (number : string)
  : option (option DetailView) :=
  match busList with
  | [] => Some None
  | _ =>
      if cancelled number then Some None else
      match find_if number busList with
      | None => Some None
      | Some it => b ← busList !! it; v ← show b; Some (Some v)
      end
  end.

(** One iteration of the [while(true)] loop: the [busList] it leaves. *)
Definition main_case (c : Choice) (busList : list Bus) : option (list Bus) :=
  match c with
  | InstallNewBus inp => Some (main_install busList inp)
  | ReserveSeat number seatIn passenger =>
      match busList with
      | [] => Some busList
      | _ => fst <$> allotment busList number seatIn passenger
      end
  | ShowBusDetails number => _ ← main_show busList number; Some busList
  | ShowAllBuses => Some busList
  | CancelSeat number seatIn confirm =>
      match busList with
      | [] => Some busList
      | _ => fst <$> cancelSeat busList number seatIn confirm
      end
  | SearchByRoute _ _ => Some busList
  end.

(** A session: the choices made one after the other. *)
Fixpoint run (cs : list Choice) (busList : list Bus) : option (list Bus) :=
  match cs with
  | [] => Some busList
  | c :: rest =>
      match main_case c busList with
      | Some busList' => run rest busList'
      | None => None
      end
  end.

(** The registries the program can hold: [busList] starts empty and only
    the menu changes it. *)
Inductive reachable : list Bus -> Prop :=
| reachable_start : reachable []
| reachable_case c busList busList' :
    reachable busList ->
    main_case c busList = Some busList' ->
    reachable busList'.

(** ** Vocabulary of the specification *)

(** A seat is vacant when its occupant is the string ["Empty"]. *)
Definition vacant (seat : Seat) : Prop := passengerName seat = "Empty".

(** Seat numbers the procedures accept. *)
Definition seat_number (n : Z) : Prop := 1 <= n <= 32.

(** The vehicle an identifier resolves to: the target of [find_if]. *)
Definition resolves (busList : list Bus) (number : string) (b : Bus) : Prop :=
  exists it, find_if number busList = Some it /\ busList !! it = Some b.

(** An 8 x 4 grid. *)
Definition grid_ok (g : list (list Seat)) : Prop :=
  length g = 8%nat /\ Forall (fun row => length row = 4%nat) g.

(** Every seat of the grid carries the default fare. *)
Definition fares_ok (g : list (list Seat)) : Prop :=
  Forall (Forall (fun seat => fare seat = default_fare)) g.

(** An input that cancels a prompt: the empty line or the token "0". *)
Definition cancels (s : string) : Prop := s = "" \/ s = "0".

(** The buses running from [origin] to [destination], in registry order. *)
Definition on_route (origin destination : string) (busList : list Bus) : list Bus :=
  filter (fun b => from b = origin /\ to b = destination) busList.

(** The lines of the seat map for the seats [l], numbered from [index]. *)
Fixpoint seat_lines (index : Z) (l : list Seat) : list SeatLine :=
  match l with
  | [] => []
  | seat :: rest =>
      mkSeatLine index (passengerName seat) (fare seat) :: seat_lines (index + 1) rest
  end.

Definition vacantb (seat : Seat) : bool := (passengerName seat =? "Empty")%string.

(** How many of the seats [l] are vacant. *)
Definition count_vacant (l : list Seat) : Z :=
  Z.of_nat (length (List.filter vacantb l)).

(** The state of [show] after printing the seats [l]. *)
Definition show_cells (l : list Seat) (st : ShowState) : ShowState :=
  mkShowState (seatIndex st + Z.of_nat (length l))
              (emptyCount st + count_vacant l)
              (printed st ++ seat_lines (seatIndex st) l).

(** ** A sample session *)

Definition sample_input : InstallInput :=
  mkInstallInput "B1" "Ravi" "10:00" "18:00" "Delhi" "Agra".

(** The sample bus as installed, and with seat 5 reserved. *)
Definition sample_bus : Bus :=
  mkBus "B1" "Ravi" "10:00" "18:00" "Delhi" "Agra" (seats Bus_new).

Definition sample_bus_booked : Bus :=
  set_seats sample_bus
    (default [] (seat_assign_name (seats sample_bus) 1 0 "Alice")).

(** [busList] after installing the sample bus. *)
Definition sample_registry : list Bus :=
  default [] (run [InstallNewBus sample_input] []).

(** [busList] after installing the sample bus and reserving seat 5. *)
Definition sample_booked : list Bus :=
  default [] (run [InstallNewBus sample_input; ReserveSeat "B1" (Some 5) "Alice"] []).

(** The only write either procedure performs: one cell of one bus. *)
Definition cell_written (busList : list Bus) (number : string) (seatIn : option Z)
    (name : string) (busList' : list Bus) : Prop :=
  exists it b n seat g',
    find_if number busList = Some it /\ busList !! it = Some b /\
    seatIn = Some n /\ seat_number n /\
    seat_at (seats b) (seat_row n) (seat_col n) = Some seat /\
    seat_assign_name (seats b) (seat_row n) (seat_col n) name = Some g' /\
    busList' = <[it := set_seats b g']> busList.

(** Two buses with the same number, driver, times and route. *)
Definition same_identity (b b' : Bus) : Prop :=
  busNumber b' = busNumber b /\ driverName b' = driverName b /\
  arrivalTime b' = arrivalTime b /\ departureTime b' = departureTime b /\
  from b' = from b /\ to b' = to b.

(** Every text field of the bus was accepted by its prompt. *)
Definition fields_ok (b : Bus) : Prop :=
  ~ cancels (busNumber b) /\ ~ cancels (driverName b) /\
  ~ cancels (arrivalTime b) /\ ~ cancels (departureTime b) /\
  ~ cancels (from b) /\ ~ cancels (to b).

(** No occupant string of the grid is empty or "0". *)
Definition names_ok (g : list (list Seat)) : Prop :=
  Forall (Forall (fun seat => ~ cancels (passengerName seat))) g.

(** 1 for a vacant seat, 0 for an occupied one. *)
Definition vacancy (seat : Seat) : Z := if vacantb seat then 1 else 0.

(** The six inputs of an installation that no prompt rejects. *)
Definition accepted (inp : InstallInput) : Prop :=
  ~ cancels (in_busNumber inp) /\ ~ cancels (in_driverName inp) /\
  ~ cancels (in_arrivalTime inp) /\ ~ cancels (in_departureTime inp) /\
  ~ cancels (in_from inp) /\ ~ cancels (in_to inp).

(** The bus an accepted installation pushes. *)
Definition installed_bus (inp : InstallInput) : Bus :=
  mkBus (in_busNumber inp) (in_driverName inp) (in_arrivalTime inp)
        (in_departureTime inp) (in_from inp) (in_to inp) (seats Bus_new).

(** A second sample bus, on another route. *)
Definition sample_input2 : InstallInput :=
  mkInstallInput "B2" "Asha" "09:00" "21:00" "Pune" "Goa".

(** [busList] after installing both sample buses and reserving seat 5 of
    the first. *)
Definition sample_fleet : list Bus :=
  default [] (run [InstallNewBus sample_input; InstallNewBus sample_input2;
                   ReserveSeat "B1" (Some 5) "Alice"] []).

(** What holds of every bus stored in [busList]. *)
Record bus_ok (b : Bus) : Prop := mk_bus_ok {
  ok_number : cancelled (busNumber b) = false;
  ok_from : cancelled (from b) = false;
  ok_to : cancelled (to b) = false;
  ok_grid : grid_ok (seats b);
  ok_fares : fares_ok (seats b)
}.

Definition registry_ok (busList : list Bus) : Prop := Forall bus_ok busList.

(** ** Indexing lemmas *)

Section Vectors.
Context {A : Type}.
Implicit Types (v : list A) (i j : Z) (x y : A).

Lemma vec_at_Some v i x :
  vec_at v i = Some x <-> 0 <= i /\ v !! Z.to_nat i = Some x.
Proof.
  unfold vec_at. destruct (Z.ltb_spec i 0); split.
  - discriminate.
  - intros [? _]; lia.
  - auto.
  - tauto.
Qed.

Lemma vec_at_in_range v i :
  0 <= i < Z.of_nat (length v) -> exists x, vec_at v i = Some x.
Proof.
  intros Hi. destruct (lookup_lt_is_Some_2 v (Z.to_nat i)) as [x Hx]; [lia|].
  exists x. apply vec_at_Some. split; [lia | exact Hx].
Qed.

Lemma vec_at_range v i x :
  vec_at v i = Some x -> 0 <= i < Z.of_nat (length v).
Proof.
  intros [Hi Hx]%vec_at_Some. apply lookup_lt_Some in Hx. lia.
Qed.

Lemma vec_set_Some v i x y :
  vec_at v i = Some y -> vec_set v i x = Some (<[Z.to_nat i := x]> v).
Proof. unfold vec_set. now intros ->. Qed.

Lemma vec_set_inv v i x v' :
  vec_set v i x = Some v' ->
  v' = <[Z.to_nat i := x]> v /\ exists y, vec_at v i = Some y.
Proof.
  unfold vec_set. destruct (vec_at v i) as [y|] eqn:E; [|discriminate].
  intros [= <-]. eauto.
Qed.

Lemma vec_at_insert_same v i x y :
  vec_at v i = Some y -> vec_at (<[Z.to_nat i := x]> v) i = Some x.
Proof.
  intros [Hi Hy]%vec_at_Some. apply vec_at_Some. split; [exact Hi|].
  apply list_lookup_insert_eq. now apply lookup_lt_Some in Hy.
Qed.

Lemma vec_at_insert_other v i j x :
  0 <= i -> i <> j -> vec_at (<[Z.to_nat i := x]> v) j = vec_at v j.
Proof.
  intros Hi Hne. unfold vec_at. destruct (Z.ltb_spec j 0); [reflexivity|].
  apply list_lookup_insert_ne. lia.
Qed.
End Vectors.

(** ** The seat numbering *)

Lemma seat_row_range n : seat_number n -> 0 <= seat_row n < 8.
Proof.
  unfold seat_number, seat_row. intros Hn.
  rewrite Z.quot_div_nonneg by lia.
  split; [apply Z.div_pos; lia | apply Z.div_lt_upper_bound; lia].
Qed.

Lemma seat_col_range n : seat_number n -> 0 <= seat_col n < 4.
Proof.
  unfold seat_number, seat_col. intros Hn.
  rewrite Z.rem_mod_nonneg by lia.
  apply Z.mod_pos_bound. lia.
Qed.

(** The seat number is recovered from its row and column. *)
Lemma seat_number_decompose n :
  seat_number n -> n = 4 * seat_row n + seat_col n + 1.
Proof.
  unfold seat_number, seat_row, seat_col. intros Hn.
  pose proof (Z.quot_rem' (n - 1) 4). lia.
Qed.

Lemma seat_row_col_inj n m :
  seat_number n -> seat_number m ->
  seat_row n = seat_row m -> seat_col n = seat_col m -> n = m.
Proof.
  intros Hn Hm Hr Hc.
  rewrite (seat_number_decompose n Hn), (seat_number_decompose m Hm). lia.
Qed.

Lemma seat_row_col_of_position r c :
  0 <= r < 8 -> 0 <= c < 4 ->
  seat_number (4 * r + c + 1) /\
  seat_row (4 * r + c + 1) = r /\ seat_col (4 * r + c + 1) = c.
Proof.
  intros Hr Hc. unfold seat_number, seat_row, seat_col.
  replace (4 * r + c + 1 - 1) with (c + r * 4) by lia.
  rewrite Z.quot_div_nonneg, Z.rem_mod_nonneg by lia.
  rewrite Z.div_add, Z.mod_add by lia.
  rewrite Z.div_small, Z.mod_small by lia. lia.
Qed.

(** ** Seat access on a grid *)

Lemma seat_at_Some g r c seat :
  seat_at g r c = Some seat <->
  exists row, vec_at g r = Some row /\ vec_at row c = Some seat.
Proof.
  unfold seat_at. destruct (vec_at g r) as [row|]; split.
  - eauto.
  - now intros (row' & [= <-] & H).
  - discriminate.
  - now intros (row' & [=] & _).
Qed.

Lemma grid_ok_row g r row :
  grid_ok g -> vec_at g r = Some row -> length row = 4%nat.
Proof.
  intros [_ Hrows] [_ Hrow]%vec_at_Some.
  rewrite Forall_lookup in Hrows. exact (Hrows _ _ Hrow).
Qed.

Lemma seat_at_in_grid g r c :
  grid_ok g -> 0 <= r < 8 -> 0 <= c < 4 -> exists seat, seat_at g r c = Some seat.
Proof.
  intros Hg Hr Hc.
  destruct (vec_at_in_range g r) as [row Hrow]; [destruct Hg as [-> _]; lia|].
  destruct (vec_at_in_range row c) as [seat Hseat].
  { rewrite (grid_ok_row g r row Hg Hrow). lia. }
  exists seat. apply seat_at_Some. eauto.
Qed.

Lemma getSeat_in_grid b n :
  grid_ok (seats b) -> seat_number n -> exists seat, getSeat b n = Some seat.
Proof.
  intros Hg Hn. apply seat_at_in_grid;
    [exact Hg | now apply seat_row_range | now apply seat_col_range].
Qed.

(** [seat_assign_name] is defined exactly where [seat_at] is, and rewrites
    one cell. *)
Lemma seat_assign_name_Some g r c name seat :
  seat_at g r c = Some seat ->
  exists row,
    vec_at g r = Some row /\
    seat_assign_name g r c name =
      Some (<[Z.to_nat r := <[Z.to_nat c := set_passengerName seat name]> row]> g).
Proof.
  intros (row & Hrow & Hseat)%seat_at_Some. exists row. split; [exact Hrow|].
  unfold seat_assign_name. rewrite Hrow, Hseat.
  rewrite (vec_set_Some row c _ seat Hseat).
  now rewrite (vec_set_Some g r _ row Hrow).
Qed.

Lemma seat_assign_name_inv g r c name g' :
  seat_assign_name g r c name = Some g' ->
  exists seat, seat_at g r c = Some seat.
Proof.
  unfold seat_assign_name, seat_at.
  destruct (vec_at g r) as [row|]; [|discriminate].
  destruct (vec_at row c) as [seat|]; [|discriminate]. eauto.
Qed.

Lemma seat_at_assign_same g r c name seat g' :
  seat_at g r c = Some seat ->
  seat_assign_name g r c name = Some g' ->
  seat_at g' r c = Some (set_passengerName seat name).
Proof.
  intros Hseat Hset.
  destruct (seat_assign_name_Some g r c name seat Hseat) as (row & Hrow & Heq).
  rewrite Heq in Hset. injection Hset as <-.
  apply seat_at_Some in Hseat as (row' & Hrow' & Hcell).
  rewrite Hrow in Hrow'. injection Hrow' as <-.
  apply seat_at_Some. eexists. split.
  - eapply vec_at_insert_same, Hrow.
  - eapply vec_at_insert_same, Hcell.
Qed.

Lemma seat_at_assign_other g r c name g' r2 c2 :
  seat_assign_name g r c name = Some g' ->
  (r2 <> r \/ c2 <> c) ->
  seat_at g' r2 c2 = seat_at g r2 c2.
Proof.
  intros Hset Hne.
  destruct (seat_assign_name_inv _ _ _ _ _ Hset) as [seat Hseat].
  destruct (seat_assign_name_Some g r c name seat Hseat) as (row & Hrow & Heq).
  rewrite Heq in Hset. injection Hset as <-.
  apply seat_at_Some in Hseat as (row' & Hrow' & Hcell).
  rewrite Hrow in Hrow'. injection Hrow' as <-.
  pose proof (vec_at_range _ _ _ Hrow) as Hr.
  pose proof (vec_at_range _ _ _ Hcell) as Hc.
  unfold seat_at. destruct (Z.eq_dec r2 r) as [->|Hr2].
  - rewrite (vec_at_insert_same g r _ row Hrow), Hrow.
    apply vec_at_insert_other; [lia|]. destruct Hne; congruence.
  - rewrite vec_at_insert_other by (lia || congruence). reflexivity.
Qed.

Lemma seat_assign_name_grid_ok g r c name g' :
  seat_assign_name g r c name = Some g' -> grid_ok g -> grid_ok g'.
Proof.
  intros Hset [Hlen Hrows].
  destruct (seat_assign_name_inv _ _ _ _ _ Hset) as [seat Hseat].
  destruct (seat_assign_name_Some g r c name seat Hseat) as (row & Hrow & Heq).
  rewrite Heq in Hset. injection Hset as <-.
  split; [now rewrite length_insert|].
  apply Forall_insert; [exact Hrows|]. rewrite length_insert.
  apply vec_at_Some in Hrow as [_ Hrow].
  rewrite Forall_lookup in Hrows. exact (Hrows _ _ Hrow).
Qed.

Lemma seat_assign_name_fares_ok g r c name g' :
  seat_assign_name g r c name = Some g' -> fares_ok g -> fares_ok g'.
Proof.
  intros Hset Hf.
  destruct (seat_assign_name_inv _ _ _ _ _ Hset) as [seat Hseat].
  destruct (seat_assign_name_Some g r c name seat Hseat) as (row & Hrow & Heq).
  rewrite Heq in Hset. injection Hset as <-.
  apply seat_at_Some in Hseat as (row' & Hrow' & Hcell).
  rewrite Hrow in Hrow'. injection Hrow' as <-.
  apply vec_at_Some in Hrow as [_ Hrow]. apply vec_at_Some in Hcell as [_ Hcell].
  unfold fares_ok in *. rewrite Forall_lookup in Hf.
  pose proof (Hf _ _ Hrow) as Hrowf.
  apply Forall_insert; [now apply Forall_lookup|].
  apply Forall_insert; [exact Hrowf|]. simpl.
  rewrite Forall_lookup in Hrowf. exact (Hrowf _ _ Hcell).
Qed.

(** Writing back the name a vacant seat already has leaves the grid as it is. *)
Lemma seat_assign_name_id g r c seat g' :
  seat_at g r c = Some seat ->
  seat_assign_name g r c (passengerName seat) = Some g' -> g' = g.
Proof.
  intros Hseat Hset.
  destruct (seat_assign_name_Some g r c (passengerName seat) seat Hseat)
    as (row & Hrow & Heq).
  rewrite Heq in Hset. injection Hset as <-.
  apply seat_at_Some in Hseat as (row' & Hrow' & Hcell).
  rewrite Hrow in Hrow'. injection Hrow' as <-.
  apply vec_at_Some in Hrow as [_ Hrow]. apply vec_at_Some in Hcell as [_ Hcell].
  replace (set_passengerName seat (passengerName seat)) with seat
    by now destruct seat.
  rewrite (list_insert_id row _ _ Hcell). now apply list_insert_id.
Qed.

(** ** Lookup by number *)

Lemma find_if_Some number busList it :
  find_if number busList = Some it ->
  exists b, busList !! it = Some b /\ busNumber b = number /\
    forall j b', (j < it)%nat -> busList !! j = Some b' -> busNumber b' <> number.
Proof.
  revert it. induction busList as [|b0 rest IH]; intros it; simpl; [discriminate|].
  unfold getBusNumber. destruct (String.eqb_spec (busNumber b0) number) as [Heq|Hne].
  - intros [= <-]. exists b0. repeat split; [exact Heq|]. intros j b' Hj. lia.
  - destruct (find_if number rest) as [i|]; [|discriminate].
    intros [= <-]. destruct (IH i eq_refl) as (b & Hb & Hnum & Hfirst).
    exists b. repeat split; [exact Hb | exact Hnum |].
    intros [|j] b' Hj; simpl.
    + now intros [= <-].
    + apply Hfirst. lia.
Qed.

Lemma find_if_None number busList :
  find_if number busList = None <->
  forall b, In b busList -> busNumber b <> number.
Proof.
  induction busList as [|b0 rest IH]; simpl.
  - split; [intros _ b [] | reflexivity].
  - unfold getBusNumber.
    destruct (String.eqb_spec (busNumber b0) number) as [Heq|Hne].
    + split; [discriminate|]. intros H. destruct (H b0); auto.
    + destruct (find_if number rest) as [i|].
      * split; [discriminate|]. intros H.
        assert (Some i = None) as Habs; [|discriminate Habs].
        apply IH. intros b Hb. apply H. now right.
      * split; [|reflexivity]. intros _ b [<-|Hb]; [exact Hne|].
        now apply (proj1 IH).
Qed.

(** A registered number always resolves, to the first bus carrying it. *)
Lemma find_if_registered number busList b :
  In b busList -> busNumber b = number ->
  exists it b', find_if number busList = Some it /\ busList !! it = Some b'.
Proof.
  intros Hin Hnum. destruct (find_if number busList) as [it|] eqn:E.
  - destruct (find_if_Some _ _ _ E) as (b' & Hb' & _). eauto.
  - rewrite find_if_None in E. now destruct (E b Hin).
Qed.

(** Replacing a bus by one with the same number does not move any lookup. *)
Lemma find_if_insert busList it b b' :
  busList !! it = Some b -> busNumber b' = busNumber b ->
  forall number', find_if number' (<[it := b']> busList) = find_if number' busList.
Proof.
  revert it. induction busList as [|b0 rest IH]; intros it Hb Hnum number'.
  - reflexivity.
  - destruct it as [|it]; simpl in *.
    + injection Hb as ->. unfold getBusNumber. now rewrite Hnum.
    + now rewrite (IH it Hb Hnum).
Qed.

Lemma resolves_number busList number b :
  resolves busList number b -> In b busList /\ busNumber b = number.
Proof.
  intros (it & Hfind & Hb).
  destruct (find_if_Some _ _ _ Hfind) as (b' & Hb' & Hnum & _).
  rewrite Hb in Hb'. injection Hb' as <-. split; [|exact Hnum].
  apply list_elem_of_In. eapply list_elem_of_lookup_2, Hb.
Qed.

(** ** Installation *)

Lemma cancelled_false s : cancelled s = false <-> s <> "0" /\ s <> "".
Proof.
  unfold cancelled. rewrite orb_false_iff.
  now rewrite !String.eqb_neq.
Qed.

Lemma cancelled_true s : cancelled s = true <-> s = "0" \/ s = "".
Proof.
  unfold cancelled. rewrite orb_true_iff.
  now rewrite !String.eqb_eq.
Qed.

Lemma Bus_new_grid_ok : grid_ok (seats Bus_new).
Proof. split; [reflexivity | repeat constructor]. Qed.

Lemma Bus_new_fares_ok : fares_ok (seats Bus_new).
Proof. repeat constructor. Qed.

(** A cancelled prompt leaves the bus without a number; otherwise the six
    inputs are stored and the grid is the constructor's. *)
Lemma install_Bus_new inp :
  let this := fst (install Bus_new inp) in
  (busNumber this = "" /\
   (cancelled (in_busNumber inp) = true \/ cancelled (in_driverName inp) = true \/
    cancelled (in_arrivalTime inp) = true \/ cancelled (in_departureTime inp) = true \/
    cancelled (in_from inp) = true \/ cancelled (in_to inp) = true))
  \/
  (this = mkBus (in_busNumber inp) (in_driverName inp) (in_arrivalTime inp)
                (in_departureTime inp) (in_from inp) (in_to inp) (seats Bus_new) /\
   cancelled (in_busNumber inp) = false /\ cancelled (in_driverName inp) = false /\
   cancelled (in_arrivalTime inp) = false /\ cancelled (in_departureTime inp) = false /\
   cancelled (in_from inp) = false /\ cancelled (in_to inp) = false).
Proof.
  unfold install. cbn [busNumber driverName arrivalTime departureTime from to
    set_busNumber set_driverName set_arrivalTime set_departureTime set_from set_to].
  destruct (cancelled (in_busNumber inp)) eqn:E1; [left; cbn; tauto|].
  destruct (cancelled (in_driverName inp)) eqn:E2; [left; cbn; tauto|].
  destruct (cancelled (in_arrivalTime inp)) eqn:E3; [left; cbn; tauto|].
  destruct (cancelled (in_departureTime inp)) eqn:E4; [left; cbn; tauto|].
  destruct (cancelled (in_from inp)) eqn:E5; [left; cbn; tauto|].
  destruct (cancelled (in_to inp)) eqn:E6; [left; cbn; tauto|].
  right. cbn. tauto.
Qed.

Lemma main_install_cases busList inp :
  main_install busList inp = busList \/
  exists b, main_install busList inp = (busList ++ [b])%list /\ bus_ok b /\
    b = mkBus (in_busNumber inp) (in_driverName inp) (in_arrivalTime inp)
              (in_departureTime inp) (in_from inp) (in_to inp) (seats Bus_new).
Proof.
  unfold main_install. unfold getBusNumber.
  destruct (install_Bus_new inp) as [[Hnum _] | (Heq & H1 & _ & _ & _ & H5 & H6)].
  - rewrite Hnum. now left.
  - rewrite Heq. cbn [busNumber].
    destruct (String.eqb_spec (in_busNumber inp) "") as [Hempty|_].
    + now left.
    + right. eexists. split; [reflexivity|]. split; [|reflexivity].
      constructor; cbn [busNumber from to seats]; auto using Bus_new_grid_ok, Bus_new_fares_ok.
Qed.

(** ** What [allotment] and [cancelSeat] do to [busList] *)

Lemma seat_range_check n :
  (n =? 0) = false -> (n <? 1) || (n >? 32) = false -> seat_number n.
Proof.
  unfold seat_number. rewrite orb_false_iff, Z.ltb_ge, Z.gtb_ltb, Z.ltb_ge. lia.
Qed.

Lemma seat_range_check_pass n :
  seat_number n -> (n =? 0) = false /\ (n <? 1) || (n >? 32) = false.
Proof.
  unfold seat_number. rewrite orb_false_iff, Z.ltb_ge, Z.gtb_ltb, Z.ltb_ge, Z.eqb_neq. lia.
Qed.

Lemma allotment_inv busList number seatIn passenger busList' msg :
  allotment busList number seatIn passenger = Some (busList', msg) ->
  busList' = busList \/ cell_written busList number seatIn passenger busList'.
Proof.
  unfold allotment.
  destruct (cancelled number); [intros [= <- _]; now left|].
  destruct (find_if number busList) as [it|] eqn:Hfind; [|intros [= <- _]; now left].
  destruct seatIn as [n|]; [|intros [= <- _]; now left].
  destruct (n =? 0) eqn:H0; [intros [= <- _]; now left|].
  destruct ((n <? 1) || (n >? 32)) eqn:Hrange; [intros [= <- _]; now left|].
  destruct (busList !! it) as [b|] eqn:Hb; [|discriminate]. cbn.
  destruct (seat_at (seats b) (seat_row n) (seat_col n)) as [seat|] eqn:Hseat;
    [|discriminate]. cbn.
  destruct (negb (passengerName seat =? "Empty")%string); [intros [= <- _]; now left|].
  destruct (cancelled passenger); [intros [= <- _]; now left|].
  destruct (seat_assign_name (seats b) (seat_row n) (seat_col n) passenger)
    as [g'|] eqn:Hset; [|discriminate]. cbn.
  destruct (seat_at g' (seat_row n) (seat_col n)); [|discriminate]. cbn.
  intros [= <- _]. right. exists it, b, n, seat, g'.
  pose proof (seat_range_check _ H0 Hrange) as [? ?]. repeat split; auto.
Qed.

Lemma cancelSeat_inv busList number seatIn confirm busList' msg :
  cancelSeat busList number seatIn confirm = Some (busList', msg) ->
  busList' = busList \/ cell_written busList number seatIn "Empty" busList'.
Proof.
  unfold cancelSeat.
  destruct (cancelled number); [intros [= <- _]; now left|].
  destruct (find_if number busList) as [it|] eqn:Hfind; [|intros [= <- _]; now left].
  destruct seatIn as [n|]; [|intros [= <- _]; now left].
  destruct (n =? 0) eqn:H0; [intros [= <- _]; now left|].
  destruct ((n <? 1) || (n >? 32)) eqn:Hrange; [intros [= <- _]; now left|].
  destruct (busList !! it) as [b|] eqn:Hb; [|discriminate]. cbn.
  destruct (seat_at (seats b) (seat_row n) (seat_col n)) as [seat|] eqn:Hseat;
    [|discriminate]. cbn.
  destruct (passengerName seat =? "Empty")%string; [intros [= <- _]; now left|].
  destruct (negb (Ascii.eqb (tolower confirm) "y")); [intros [= <- _]; now left|].
  destruct (seat_assign_name (seats b) (seat_row n) (seat_col n) "Empty")
    as [g'|] eqn:Hset; [|discriminate]. cbn.
  intros [= <- _]. right. exists it, b, n, seat, g'.
  pose proof (seat_range_check _ H0 Hrange) as [? ?]. repeat split; auto.
Qed.

(** ** The registry invariant *)

Lemma cell_written_ok busList number seatIn name busList' :
  cell_written busList number seatIn name busList' ->
  registry_ok busList -> registry_ok busList'.
Proof.
  intros (it & b & n & seat & g' & _ & Hb & _ & _ & _ & Hset & ->) Hok.
  apply Forall_insert; [exact Hok|].
  unfold registry_ok in Hok. rewrite Forall_lookup in Hok.
  destruct (Hok _ _ Hb) as [H1 H2 H3 H4 H5].
  constructor; cbn [busNumber from to seats set_seats]; auto.
  - eapply seat_assign_name_grid_ok; eauto.
  - eapply seat_assign_name_fares_ok; eauto.
Qed.

Lemma main_case_ok c busList busList' :
  main_case c busList = Some busList' ->
  registry_ok busList -> registry_ok busList'.
Proof.
  destruct c as [inp|number seatIn passenger|number| |number seatIn confirm|o d];
    cbn [main_case]; intros Hstep Hok.
  - injection Hstep as <-.
    destruct (main_install_cases busList inp) as [->|(b & -> & Hb & _)]; [exact Hok|].
    apply Forall_app. split; [exact Hok | now constructor].
  - destruct busList as [|b0 rest]; [now injection Hstep as <-|].
    destruct (allotment (b0 :: rest) number seatIn passenger) as [[bl msg]|] eqn:E;
      [|discriminate].
    injection Hstep as <-.
    destruct (allotment_inv _ _ _ _ _ _ E) as [->|Hw]; [exact Hok|].
    eapply cell_written_ok; eauto.
  - destruct (main_show busList number); [|discriminate].
    now injection Hstep as <-.
  - now injection Hstep as <-.
  - destruct busList as [|b0 rest]; [now injection Hstep as <-|].
    destruct (cancelSeat (b0 :: rest) number seatIn confirm) as [[bl msg]|] eqn:E;
      [|discriminate].
    injection Hstep as <-.
    destruct (cancelSeat_inv _ _ _ _ _ _ E) as [->|Hw]; [exact Hok|].
    eapply cell_written_ok; eauto.
  - now injection Hstep as <-.
Qed.

Lemma reachable_ok busList : reachable busList -> registry_ok busList.
Proof.
  induction 1 as [|c busList busList' _ IH Hstep]; [constructor|].
  eapply main_case_ok; eauto.
Qed.

Lemma run_reachable cs busList busList' :
  reachable busList -> run cs busList = Some busList' -> reachable busList'.
Proof.
  revert busList. induction cs as [|c rest IH]; intros busList Hr; simpl.
  - now intros [= <-].
  - destruct (main_case c busList) as [bl|] eqn:E; [|discriminate].
    apply IH. eapply reachable_case; eauto.
Qed.

Lemma resolves_ok busList number b :
  registry_ok busList -> resolves busList number b ->
  bus_ok b /\ cancelled number = false.
Proof.
  intros Hok Hres. destruct (resolves_number _ _ _ Hres) as [Hin <-].
  unfold registry_ok in Hok. rewrite Forall_forall in Hok.
  apply list_elem_of_In in Hin.
  pose proof (Hok _ Hin) as Hb. split; [exact Hb | apply Hb].
Qed.

(** ** The paths through [allotment] and [cancelSeat] past the range check *)

Section SeatPaths.
Variables (busList : list Bus) (number : string) (it : nat) (b : Bus).
Variables (n : Z) (seat : Seat).
Hypothesis Hnumber : cancelled number = false.
Hypothesis Hfind : find_if number busList = Some it.
Hypothesis Hb : busList !! it = Some b.
Hypothesis Hn : seat_number n.
Hypothesis Hseat : seat_at (seats b) (seat_row n) (seat_col n) = Some seat.

Lemma allotment_occupied passenger :
  passengerName seat <> "Empty" ->
  allotment busList number (Some n) passenger =
    Some (busList, AllotAlreadyReserved (passengerName seat)).
Proof.
  intros Hocc. unfold allotment. rewrite Hnumber, Hfind.
  destruct (seat_range_check_pass n Hn) as [-> ->].
  rewrite Hb. cbn. rewrite Hseat. cbn.
  now apply String.eqb_neq in Hocc as ->.
Qed.

Lemma allotment_vacant passenger :
  passengerName seat = "Empty" -> cancelled passenger = false ->
  exists g',
    seat_assign_name (seats b) (seat_row n) (seat_col n) passenger = Some g' /\
    allotment busList number (Some n) passenger =
      Some (<[it := set_seats b g']> busList, AllotReserved n passenger (fare seat)).
Proof.
  intros Hvac Hpass.
  destruct (seat_assign_name_Some _ _ _ passenger _ Hseat) as (row & _ & Hset).
  eexists. split; [exact Hset|].
  unfold allotment. rewrite Hnumber, Hfind.
  destruct (seat_range_check_pass n Hn) as [-> ->].
  rewrite Hb. cbn. rewrite Hseat. cbn.
  rewrite Hvac. cbn. rewrite Hpass, Hset. cbn.
  now rewrite (seat_at_assign_same _ _ _ _ _ _ Hseat Hset).
Qed.

Lemma cancelSeat_vacant confirm :
  passengerName seat = "Empty" ->
  cancelSeat busList number (Some n) confirm = Some (busList, CancelAlreadyEmpty).
Proof.
  intros Hvac. unfold cancelSeat. rewrite Hnumber, Hfind.
  destruct (seat_range_check_pass n Hn) as [-> ->].
  rewrite Hb. cbn. rewrite Hseat. cbn. now rewrite Hvac.
Qed.

Lemma cancelSeat_confirmed confirm :
  passengerName seat <> "Empty" -> tolower confirm = "y"%char ->
  exists g',
    seat_assign_name (seats b) (seat_row n) (seat_col n) "Empty" = Some g' /\
    cancelSeat busList number (Some n) confirm =
      Some (<[it := set_seats b g']> busList, CancelDone n).
Proof.
  intros Hocc Hyes.
  destruct (seat_assign_name_Some _ _ _ "Empty" _ Hseat) as (row & _ & Hset).
  eexists. split; [exact Hset|].
  unfold cancelSeat. rewrite Hnumber, Hfind.
  destruct (seat_range_check_pass n Hn) as [-> ->].
  rewrite Hb. cbn. rewrite Hseat. cbn.
  apply String.eqb_neq in Hocc as ->. rewrite Hyes. cbn.
  now rewrite Hset.
Qed.

Lemma cancelSeat_declined confirm :
  passengerName seat <> "Empty" -> tolower confirm <> "y"%char ->
  cancelSeat busList number (Some n) confirm = Some (busList, CancelAborted).
Proof.
  intros Hocc Hno. unfold cancelSeat. rewrite Hnumber, Hfind.
  destruct (seat_range_check_pass n Hn) as [-> ->].
  rewrite Hb. cbn. rewrite Hseat. cbn.
  apply String.eqb_neq in Hocc as ->.
  now apply Ascii.eqb_neq in Hno as ->.
Qed.
End SeatPaths.

(** Two seat numbers with the same row and column are the same number. *)
Lemma seat_position_inj n m :
  seat_row n = seat_row m -> seat_col n = seat_col m -> n = m.
Proof.
  unfold seat_row, seat_col. intros Hr Hc.
  pose proof (Z.quot_rem' (n - 1) 4). pose proof (Z.quot_rem' (m - 1) 4). lia.
Qed.

(** Writing a name twice is writing the last one. *)
Lemma seat_assign_name_twice g r c name1 name2 g1 :
  seat_assign_name g r c name1 = Some g1 ->
  seat_assign_name g1 r c name2 = seat_assign_name g r c name2.
Proof.
  intros Hset1.
  destruct (seat_assign_name_inv _ _ _ _ _ Hset1) as [seat Hseat].
  pose proof (seat_at_assign_same _ _ _ _ _ _ Hseat Hset1) as Hseat1.
  destruct (seat_assign_name_Some g r c name1 seat Hseat) as (row & Hrow & Heq1).
  rewrite Heq1 in Hset1. injection Hset1 as <-.
  destruct (seat_assign_name_Some g r c name2 seat Hseat) as (row' & Hrow' & ->).
  rewrite Hrow in Hrow'. injection Hrow' as <-.
  destruct (seat_assign_name_Some _ r c name2 _ Hseat1) as (row1 & Hrow1 & ->).
  rewrite (vec_at_insert_same g r _ row Hrow) in Hrow1. injection Hrow1 as <-.
  now rewrite !list_insert_insert_eq.
Qed.

Lemma set_seats_same b : set_seats b (seats b) = b.
Proof. now destruct b. Qed.

(** ** Reserving and releasing seats *)

(** C1. In a registry the program can hold, when [number] resolves to a bus
    [b] whose seat [n] (1..32) is vacant and the passenger name is neither
    empty nor "0": [allotment] reports the reservation with the fare of that
    seat, the seat now carries the passenger name and the same fare, every
    other seat of the bus, every field of the bus, every other bus and the
    length of the registry are as before. *)
Theorem allotment_reserves_vacant_seat busList number b n seat passenger :
  reachable busList -> resolves busList number b ->
  seat_number n -> getSeat b n = Some seat -> vacant seat ->
  passenger <> "" -> passenger <> "0" ->
  exists busList' it b',
    allotment busList number (Some n) passenger =
      Some (busList', AllotReserved n passenger (fare seat)) /\
    find_if number busList = Some it /\ busList !! it = Some b /\
    busList' !! it = Some b' /\
    getSeat b' n = Some (mkSeat passenger (fare seat)) /\
    (forall m, m <> n -> getSeat b' m = getSeat b m) /\
    grid_ok (seats b') /\
    busNumber b' = busNumber b /\ driverName b' = driverName b /\
    arrivalTime b' = arrivalTime b /\ departureTime b' = departureTime b /\
    from b' = from b /\ to b' = to b /\
    length busList' = length busList /\
    (forall j, j <> it -> busList' !! j = busList !! j).
Proof.
  intros Hreach Hres Hn Hseat Hvac Hne He.
  pose proof (reachable_ok _ Hreach) as Hok.
  destruct (resolves_ok _ _ _ Hok Hres) as [Hbok Hnumber].
  destruct Hres as (it & Hfind & Hb).
  assert (cancelled passenger = false) as Hpass by now apply cancelled_false.
  destruct (allotment_vacant busList number it b n seat Hnumber Hfind Hb Hn Hseat
              passenger Hvac Hpass) as (g' & Hset & Hrun).
  exists (<[it := set_seats b g']> busList), it, (set_seats b g').
  split; [exact Hrun|]. split; [exact Hfind|]. split; [exact Hb|].
  split; [apply list_lookup_insert_eq; eapply lookup_lt_Some, Hb|].
  split; [exact (seat_at_assign_same _ _ _ _ _ _ Hseat Hset)|].
  split.
  { intros m Hm. unfold getSeat. cbn [seats set_seats].
    apply (seat_at_assign_other _ _ _ _ _ _ _ Hset).
    destruct (Z.eq_dec (seat_row m) (seat_row n)) as [Hr|Hr]; [|now left].
    right. intros Hc. apply Hm. now apply seat_position_inj. }
  split; [exact (seat_assign_name_grid_ok _ _ _ _ _ Hset (ok_grid _ Hbok))|].
  repeat (split; [reflexivity|]).
  split; [apply length_insert|].
  intros j Hj. now apply list_lookup_insert_ne.
Qed.

(** C2. In a registry the program can hold, when [number] resolves to a bus
    whose seat [n] (1..32) is occupied, [allotment] reports that the seat is
    already reserved, naming the occupant, and leaves [busList] as it was. *)
Theorem allotment_occupied_seat busList number b n seat passenger :
  reachable busList -> resolves busList number b ->
  seat_number n -> getSeat b n = Some seat -> ~ vacant seat ->
  allotment busList number (Some n) passenger =
    Some (busList, AllotAlreadyReserved (passengerName seat)).
Proof.
  intros Hreach Hres Hn Hseat Hocc.
  destruct (resolves_ok _ _ _ (reachable_ok _ Hreach) Hres) as [_ Hnumber].
  destruct Hres as (it & Hfind & Hb).
  now apply (allotment_occupied busList number it b n seat).
Qed.

(** C3. Reserving a vacant seat [n] (1..32) of the bus [number] resolves to,
    for a passenger name that is neither empty nor "0", and then cancelling
    seat [n] of [number] with the answer 'y' or 'Y', both run to the end and
    leave the registry exactly as it was before the reservation: the seat is
    vacant again with the fare it had. *)
Theorem allotment_then_cancelSeat busList number b n seat passenger confirm :
  reachable busList -> resolves busList number b ->
  seat_number n -> getSeat b n = Some seat -> vacant seat ->
  passenger <> "" -> passenger <> "0" ->
  tolower confirm = "y"%char ->
  exists busList1 busList2 msg,
    allotment busList number (Some n) passenger =
      Some (busList1, AllotReserved n passenger (fare seat)) /\
    cancelSeat busList1 number (Some n) confirm = Some (busList2, msg) /\
    busList2 = busList /\
    resolves busList2 number b /\ getSeat b n = Some seat /\ vacant seat.
Proof.
  intros Hreach Hres Hn Hseat Hvac Hne He Hyes.
  pose proof (reachable_ok _ Hreach) as Hok.
  destruct (resolves_ok _ _ _ Hok Hres) as [Hbok Hnumber].
  pose proof Hres as (it & Hfind & Hb).
  assert (cancelled passenger = false) as Hpass by now apply cancelled_false.
  destruct (allotment_vacant busList number it b n seat Hnumber Hfind Hb Hn Hseat
              passenger Hvac Hpass) as (g1 & Hset1 & Hrun1).
  set (b1 := set_seats b g1). set (busList1 := <[it := b1]> busList).
  assert (find_if number busList1 = Some it) as Hfind1.
  { unfold busList1. now rewrite (find_if_insert busList it b b1 Hb eq_refl). }
  assert (busList1 !! it = Some b1) as Hb1.
  { apply list_lookup_insert_eq. eapply lookup_lt_Some, Hb. }
  pose proof (seat_at_assign_same _ _ _ _ _ _ Hseat Hset1) as Hseat1.
  destruct (String.eqb_spec passenger "Empty") as [->|Hname].
  - (* the name written is the vacancy marker itself *)
    exists busList1, busList1, CancelAlreadyEmpty. split; [exact Hrun1|].
    split; [now apply (cancelSeat_vacant busList1 number it b1 n _ Hnumber Hfind1 Hb1 Hn Hseat1)|].
    assert (busList1 = busList) as ->; [|tauto].
    unfold busList1, b1. rewrite <- Hvac in Hset1.
    rewrite (seat_assign_name_id _ _ _ _ _ Hseat Hset1), set_seats_same.
    now apply list_insert_id.
  - destruct (cancelSeat_confirmed busList1 number it b1 n _ Hnumber Hfind1 Hb1 Hn
                Hseat1 confirm Hname Hyes) as (g2 & Hset2 & Hrun2).
    eexists busList1, _, _. split; [exact Hrun1|]. split; [exact Hrun2|].
    assert (<[it := set_seats b1 g2]> busList1 = busList) as ->; [|tauto].
    cbn [seats b1 set_seats] in Hset2.
    rewrite (seat_assign_name_twice _ _ _ _ _ _ Hset1) in Hset2.
    rewrite <- Hvac in Hset2.
    rewrite (seat_assign_name_id _ _ _ _ _ Hseat Hset2).
    unfold busList1. rewrite list_insert_insert_eq.
    replace (set_seats b1 (seats b)) with b by now destruct b.
    now apply list_insert_id.
Qed.

(** C4. In a registry the program can hold, for a number that resolves to a
    bus and a seat number read as an [int] that is not 0 and lies outside
    1..32, [allotment] and [cancelSeat] both report an invalid seat number
    and leave [busList] as it was. *)
Theorem seat_number_out_of_range busList number b n passenger confirm :
  reachable busList -> resolves busList number b ->
  n <> 0 -> ~ seat_number n ->
  allotment busList number (Some n) passenger = Some (busList, AllotInvalidSeat) /\
  cancelSeat busList number (Some n) confirm = Some (busList, CancelInvalidSeat).
Proof.
  intros Hreach Hres Hn0 Hout.
  destruct (resolves_ok _ _ _ (reachable_ok _ Hreach) Hres) as [_ Hnumber].
  destruct Hres as (it & Hfind & _).
  assert ((n <? 1) || (n >? 32) = true) as Hrange.
  { unfold seat_number in Hout. rewrite orb_true_iff, Z.ltb_lt, Z.gtb_ltb, Z.ltb_lt. lia. }
  apply Z.eqb_neq in Hn0.
  unfold allotment, cancelSeat. now rewrite Hnumber, Hfind, Hn0, Hrange.
Qed.

(** ** Installation is all or nothing *)

(** C5. When one of the six installation inputs (number, driver, arrival
    time, departure time, origin, destination) is empty or "0", the menu
    entry that installs a bus leaves [busList] as it was: nothing is
    appended, the length and the contents are the same. *)
Theorem cancelled_install_adds_nothing busList inp :
  cancels (in_busNumber inp) \/ cancels (in_driverName inp) \/
  cancels (in_arrivalTime inp) \/ cancels (in_departureTime inp) \/
  cancels (in_from inp) \/ cancels (in_to inp) ->
  snd (install Bus_new inp) = InstallationCancelled /\
  main_install busList inp = busList /\
  main_case (InstallNewBus inp) busList = Some busList /\
  length (main_install busList inp) = length busList.
Proof.
  intros Hcancel.
  assert (cancelled (in_busNumber inp) = true \/ cancelled (in_driverName inp) = true \/
          cancelled (in_arrivalTime inp) = true \/ cancelled (in_departureTime inp) = true \/
          cancelled (in_from inp) = true \/ cancelled (in_to inp) = true) as Hc.
  { unfold cancels in Hcancel. rewrite !cancelled_true. tauto. }
  assert (snd (install Bus_new inp) = InstallationCancelled /\
          busNumber (fst (install Bus_new inp)) = "") as [Hmsg Hnum].
  { unfold install. cbn [busNumber driverName arrivalTime departureTime from to
      set_busNumber set_driverName set_arrivalTime set_departureTime set_from set_to].
    destruct (cancelled (in_busNumber inp)); [now split|].
    destruct (cancelled (in_driverName inp)); [now split|].
    destruct (cancelled (in_arrivalTime inp)); [now split|].
    destruct (cancelled (in_departureTime inp)); [now split|].
    destruct (cancelled (in_from inp)); [now split|].
    destruct (cancelled (in_to inp)); [now split|].
    exfalso. intuition discriminate. }
  assert (main_install busList inp = busList) as Heq.
  { unfold main_install, getBusNumber. now rewrite Hnum. }
  cbn [main_case]. now rewrite Heq.
Qed.

(** ** Searching by route *)

Lemma matchesRoute_true b origin destination :
  matchesRoute b origin destination = true <-> from b = origin /\ to b = destination.
Proof. unfold matchesRoute. now rewrite andb_true_iff, !String.eqb_eq. Qed.

Lemma search_loop_spec origin destination busList foundAny out :
  search_loop origin destination busList foundAny out =
    (foundAny || negb (forallb (fun b => negb (matchesRoute b origin destination)) busList),
     (out ++ map printBasicInfo (on_route origin destination busList))%list).
Proof.
  unfold on_route.
  revert foundAny out. induction busList as [|b rest IH]; intros foundAny out;
    cbn [search_loop forallb].
  - cbn. now rewrite orb_false_r, app_nil_r.
  - rewrite filter_cons.
    destruct (matchesRoute b origin destination) eqn:Hm; rewrite IH; cbn [negb andb].
    + rewrite decide_True by now apply matchesRoute_true.
      cbn [map]. rewrite <- app_assoc. now rewrite orb_true_r.
    + rewrite decide_False; [reflexivity|].
      rewrite <- matchesRoute_true. congruence.
Qed.

Lemma on_route_none origin destination busList :
  forallb (fun b => negb (matchesRoute b origin destination)) busList = true ->
  on_route origin destination busList = [].
Proof.
  unfold on_route. induction busList as [|b rest IH]; simpl; [reflexivity|].
  rewrite andb_true_iff, negb_true_iff. intros [Hb Hrest].
  rewrite filter_cons, decide_False; [now apply IH|].
  rewrite <- matchesRoute_true. congruence.
Qed.

Lemma on_route_cancelled origin destination busList :
  registry_ok busList ->
  cancelled origin = true \/ cancelled destination = true ->
  on_route origin destination busList = [].
Proof.
  unfold on_route. intros Hok Hc. induction Hok as [|b rest Hb _ IH]; [reflexivity|].
  rewrite filter_cons, decide_False; [exact IH|].
  intros [Ho Hd]. destruct Hb as [_ Hfrom Hto _ _]. rewrite Ho in Hfrom.
  rewrite Hd in Hto. destruct Hc; congruence.
Qed.

(** C6. In a registry the program can hold, for every origin and
    destination, the summaries [searchBusesByRoute] prints are those of the
    buses whose origin is exactly the given origin and whose destination is
    exactly the given destination (string equality, nothing trimmed or
    case-folded), each once, in the order of [busList]. *)
Theorem search_prints_buses_on_route busList origin destination :
  reachable busList ->
  search_views (searchBusesByRoute busList origin destination) =
    map printBasicInfo (on_route origin destination busList).
Proof.
  intros Hok%reachable_ok. unfold searchBusesByRoute.
  destruct busList as [|b0 rest]; [reflexivity|].
  destruct (cancelled origin) eqn:Ho.
  { rewrite on_route_cancelled; auto. }
  destruct (cancelled destination) eqn:Hd.
  { rewrite on_route_cancelled; auto. }
  rewrite search_loop_spec. cbn [orb app].
  destruct (forallb _ (b0 :: rest)) eqn:Hall; cbn [negb search_views].
  - now rewrite on_route_none.
  - reflexivity.
Qed.

(** ** No access leaves the grid *)

Lemma find_if_lookup number busList it :
  find_if number busList = Some it -> exists b, busList !! it = Some b.
Proof. intros (b & Hb & _)%find_if_Some. eauto. Qed.

Lemma allotment_defined busList number seatIn passenger :
  registry_ok busList -> allotment busList number seatIn passenger <> None.
Proof.
  intros Hok. unfold allotment.
  destruct (cancelled number); [discriminate|].
  destruct (find_if number busList) as [it|] eqn:Hfind; [|discriminate].
  destruct seatIn as [n|]; [|discriminate].
  destruct (n =? 0) eqn:H0; [discriminate|].
  destruct ((n <? 1) || (n >? 32)) eqn:Hrange; [discriminate|].
  pose proof (seat_range_check _ H0 Hrange) as Hn.
  destruct (find_if_lookup _ _ _ Hfind) as [b Hb]. rewrite Hb. cbn.
  unfold registry_ok in Hok. rewrite Forall_lookup in Hok.
  pose proof (ok_grid _ (Hok _ _ Hb)) as Hg.
  destruct (getSeat_in_grid b n Hg Hn) as [seat Hseat]. unfold getSeat in Hseat.
  rewrite Hseat. cbn.
  destruct (negb (passengerName seat =? "Empty")%string); [discriminate|].
  destruct (cancelled passenger); [discriminate|].
  destruct (seat_assign_name_Some _ _ _ passenger _ Hseat) as (row & _ & Hset).
  rewrite Hset. cbn.
  now rewrite (seat_at_assign_same _ _ _ _ _ _ Hseat Hset).
Qed.

Lemma cancelSeat_defined busList number seatIn confirm :
  registry_ok busList -> cancelSeat busList number seatIn confirm <> None.
Proof.
  intros Hok. unfold cancelSeat.
  destruct (cancelled number); [discriminate|].
  destruct (find_if number busList) as [it|] eqn:Hfind; [|discriminate].
  destruct seatIn as [n|]; [|discriminate].
  destruct (n =? 0) eqn:H0; [discriminate|].
  destruct ((n <? 1) || (n >? 32)) eqn:Hrange; [discriminate|].
  pose proof (seat_range_check _ H0 Hrange) as Hn.
  destruct (find_if_lookup _ _ _ Hfind) as [b Hb]. rewrite Hb. cbn.
  unfold registry_ok in Hok. rewrite Forall_lookup in Hok.
  pose proof (ok_grid _ (Hok _ _ Hb)) as Hg.
  destruct (getSeat_in_grid b n Hg Hn) as [seat Hseat]. unfold getSeat in Hseat.
  rewrite Hseat. cbn.
  destruct (passengerName seat =? "Empty")%string; [discriminate|].
  destruct (negb (Ascii.eqb (tolower confirm) "y")); [discriminate|].
  destruct (seat_assign_name_Some _ _ _ "Empty" _ Hseat) as (row & _ & Hset).
  now rewrite Hset.
Qed.

(** C7. Seat numbers 1..32 and the positions of the 8 x 4 grid correspond
    one to one under row = (n-1)/4, col = (n-1)%4: a seat number lands inside
    the grid, two seat numbers with the same position are equal, and every
    position is the position of a seat number.  Hence on every bus the
    program can hold, and on a freshly constructed one, seat [n] exists, and
    neither [allotment] nor [cancelSeat] ever indexes out of range. *)
Theorem seat_numbering_covers_grid n m r c busList b number seatIn passenger confirm :
  seat_number n -> seat_number m -> 0 <= r < 8 -> 0 <= c < 4 ->
  reachable busList -> In b busList ->
  (0 <= seat_row n < 8 /\ 0 <= seat_col n < 4) /\
  (seat_row n = seat_row m -> seat_col n = seat_col m -> n = m) /\
  (exists k, seat_number k /\ seat_row k = r /\ seat_col k = c) /\
  (exists seat, getSeat Bus_new n = Some seat) /\
  (exists seat, getSeat b n = Some seat) /\
  (exists busList' msg,
     allotment busList number seatIn passenger = Some (busList', msg)) /\
  (exists busList' msg,
     cancelSeat busList number seatIn confirm = Some (busList', msg)).
Proof.
  intros Hn Hm Hr Hc Hok%reachable_ok Hin.
  split; [split; [now apply seat_row_range | now apply seat_col_range]|].
  split; [now apply seat_row_col_inj|].
  split; [exists (4 * r + c + 1); now apply seat_row_col_of_position|].
  split; [apply getSeat_in_grid; [apply Bus_new_grid_ok | exact Hn]|].
  split.
  { apply getSeat_in_grid; [|exact Hn]. unfold registry_ok in Hok.
    rewrite Forall_forall in Hok. apply ok_grid, Hok. now apply list_elem_of_In. }
  split.
  - pose proof (allotment_defined busList number seatIn passenger Hok) as Hdef.
    destruct (allotment busList number seatIn passenger) as [[bl msg]|]; [eauto|].
    now destruct Hdef.
  - pose proof (cancelSeat_defined busList number seatIn confirm Hok) as Hdef.
    destruct (cancelSeat busList number seatIn confirm) as [[bl msg]|]; [eauto|].
    now destruct Hdef.
Qed.

(** ** Fares *)

Lemma fares_ok_seat g r c seat :
  fares_ok g -> seat_at g r c = Some seat -> fare seat = default_fare.
Proof.
  intros Hf (row & [_ Hrow]%vec_at_Some & [_ Hcell]%vec_at_Some)%seat_at_Some.
  unfold fares_ok in Hf. rewrite Forall_lookup in Hf.
  pose proof (Hf _ _ Hrow) as Hrowf. rewrite Forall_lookup in Hrowf.
  exact (Hrowf _ _ Hcell).
Qed.

Lemma Bus_new_seat n :
  seat_number n -> getSeat Bus_new n = Some (mkSeat "Empty" 300%float).
Proof.
  intros Hn. unfold getSeat.
  pose proof (seat_row_range n Hn) as Hr. pose proof (seat_col_range n Hn) as Hc.
  assert (seat_row n = 0 \/ seat_row n = 1 \/ seat_row n = 2 \/ seat_row n = 3 \/
          seat_row n = 4 \/ seat_row n = 5 \/ seat_row n = 6 \/ seat_row n = 7)
    as Hrow by lia.
  assert (seat_col n = 0 \/ seat_col n = 1 \/ seat_col n = 2 \/ seat_col n = 3)
    as Hcol by lia.
  destruct Hrow as [->|[->|[->|[->|[->|[->|[->| ->]]]]]]];
    destruct Hcol as [->|[->|[->| ->]]]; reflexivity.
Qed.

Lemma grid_ok_32 g : grid_ok g -> length (concat g) = 32%nat.
Proof.
  intros [Hlen Hrows].
  assert (length (concat g) = (4 * length g)%nat) as ->; [|lia].
  clear Hlen. induction Hrows as [|row rest Hrow _ IH]; [reflexivity|].
  cbn [concat]. rewrite length_app, IH, Hrow. cbn [length]. lia.
Qed.

(** A menu entry keeps every bus in place and every fare as it is. *)
Lemma main_case_keeps_fares c busList busList' it b n seat :
  main_case c busList = Some busList' ->
  busList !! it = Some b -> getSeat b n = Some seat ->
  exists b' seat',
    busList' !! it = Some b' /\ getSeat b' n = Some seat' /\ fare seat' = fare seat.
Proof.
  intros Hstep Hb Hseat.
  assert (busList' = busList \/
          (exists b1, busList' = (busList ++ [b1])%list) \/
          (exists number seatIn name, cell_written busList number seatIn name busList'))
    as [->|[[b1 ->]|(number & seatIn & name & Hw)]].
  { destruct c as [inp|number seatIn passenger|number| |number seatIn confirm|o d];
      cbn [main_case] in Hstep.
    - injection Hstep as <-.
      destruct (main_install_cases busList inp) as [->|(b1 & -> & _)]; eauto.
    - destruct busList as [|b0 rest]; [injection Hstep as <-; now left|].
      destruct (allotment (b0 :: rest) number seatIn passenger) as [[bl msg]|] eqn:E;
        [|discriminate].
      injection Hstep as <-.
      destruct (allotment_inv _ _ _ _ _ _ E) as [->|Hw]; [now left|]. right; right; eauto.
    - destruct (main_show busList number); [|discriminate].
      injection Hstep as <-. now left.
    - injection Hstep as <-. now left.
    - destruct busList as [|b0 rest]; [injection Hstep as <-; now left|].
      destruct (cancelSeat (b0 :: rest) number seatIn confirm) as [[bl msg]|] eqn:E;
        [|discriminate].
      injection Hstep as <-.
      destruct (cancelSeat_inv _ _ _ _ _ _ E) as [->|Hw]; [now left|]. right; right; eauto.
    - injection Hstep as <-. now left. }
  - eauto.
  - exists b, seat. split; [now apply lookup_app_l_Some | auto].
  - destruct Hw as (it0 & b0 & n0 & seat0 & g' & _ & Hb0 & _ & _ & Hseat0 & Hset & ->).
    destruct (Nat.eq_dec it0 it) as [->|Hit].
    + rewrite Hb in Hb0. injection Hb0 as <-.
      exists (set_seats b g'). unfold getSeat in *. cbn [seats set_seats].
      rewrite list_lookup_insert_eq by (eapply lookup_lt_Some, Hb).
      destruct (Z.eq_dec (seat_row n) (seat_row n0)) as [Hr|Hr];
        [destruct (Z.eq_dec (seat_col n) (seat_col n0)) as [Hc|Hc]|].
      * rewrite Hr, Hc in *. rewrite Hseat in Hseat0. injection Hseat0 as <-.
        eexists. split; [reflexivity|].
        split; [exact (seat_at_assign_same _ _ _ _ _ _ Hseat Hset) | reflexivity].
      * exists seat. rewrite (seat_at_assign_other _ _ _ _ _ _ _ Hset) by now right.
        auto.
      * exists seat. rewrite (seat_at_assign_other _ _ _ _ _ _ _ Hset) by now left.
        auto.
    + exists b, seat. rewrite list_lookup_insert_ne by exact Hit. auto.
Qed.

(** C8. A freshly constructed bus has 8 rows of 4 seats, 32 in all, each
    vacant with fare 300.0; every bus of a registry the program can hold
    still has its 32 seats, each with fare 300.0; and whatever menu entry
    runs next, every seat of every bus keeps its fare. *)
Theorem fares_stay_default busList it b n c busList' :
  reachable busList -> busList !! it = Some b -> seat_number n ->
  main_case c busList = Some busList' ->
  grid_ok (seats Bus_new) /\ length (concat (seats Bus_new)) = 32%nat /\
  getSeat Bus_new n = Some (mkSeat "Empty" 300%float) /\
  grid_ok (seats b) /\ length (concat (seats b)) = 32%nat /\
  (exists seat, getSeat b n = Some seat /\ fare seat = 300%float) /\
  (exists b' seat',
     busList' !! it = Some b' /\ getSeat b' n = Some seat' /\ fare seat' = 300%float).
Proof.
  intros Hok%reachable_ok Hb Hn Hstep.
  unfold registry_ok in Hok. rewrite Forall_lookup in Hok.
  destruct (Hok _ _ Hb) as [_ _ _ Hg Hf].
  destruct (getSeat_in_grid b n Hg Hn) as [seat Hseat].
  pose proof (fares_ok_seat _ _ _ _ Hf Hseat) as Hfare.
  split; [apply Bus_new_grid_ok|]. split; [reflexivity|].
  split; [now apply Bus_new_seat|]. split; [exact Hg|].
  split; [now apply grid_ok_32|].
  split; [eauto|].
  destruct (main_case_keeps_fares _ _ _ _ _ _ _ Hstep Hb Hseat)
    as (b' & seat' & Hb' & Hseat' & Hfare').
  exists b', seat'. repeat split; [exact Hb' | exact Hseat' |].
  now rewrite Hfare', Hfare.
Qed.

(** ** The seat map printed by [show] *)

Lemma seat_lines_app index l1 l2 :
  seat_lines index (l1 ++ l2) =
    (seat_lines index l1 ++ seat_lines (index + Z.of_nat (length l1)) l2)%list.
Proof.
  revert index. induction l1 as [|seat rest IH]; intros index; cbn [seat_lines app length].
  - now rewrite Z.add_0_r.
  - rewrite IH. do 3 f_equal. lia.
Qed.

Lemma seat_lines_lookup index l k seat :
  l !! k = Some seat ->
  seat_lines index l !! k =
    Some (mkSeatLine (index + Z.of_nat k) (passengerName seat) (fare seat)).
Proof.
  revert index k. induction l as [|s rest IH]; intros index [|k] Hk;
    try discriminate Hk; cbn [seat_lines].
  - injection Hk as ->. cbn. now rewrite Z.add_0_r.
  - change (rest !! k = Some seat) in Hk.
    change (seat_lines (index + 1) rest !! k =
            Some (mkSeatLine (index + Z.of_nat (S k)) (passengerName seat) (fare seat))).
    rewrite (IH _ _ Hk). do 2 f_equal. lia.
Qed.

Lemma count_vacant_app l1 l2 :
  count_vacant (l1 ++ l2) = count_vacant l1 + count_vacant l2.
Proof. unfold count_vacant. rewrite List.filter_app, length_app. lia. Qed.

(** The count is the number of lines that read "Empty". *)
Lemma count_vacant_lines index l :
  count_vacant l =
    Z.of_nat (length (List.filter (fun line => (line_text line =? "Empty")%string)
                                  (seat_lines index l))).
Proof.
  unfold count_vacant. revert index.
  induction l as [|seat rest IH]; intros index; [reflexivity|].
  cbn [seat_lines List.filter line_text].
  change (vacantb seat) with (passengerName seat =? "Empty")%string.
  destruct (passengerName seat =? "Empty")%string; cbn [length];
    rewrite ?Nat2Z.inj_succ; now rewrite (IH (index + 1)).
Qed.

Lemma show_cells_app l1 l2 st :
  show_cells l2 (show_cells l1 st) = show_cells (l1 ++ l2) st.
Proof.
  unfold show_cells. cbn [seatIndex emptyCount printed].
  rewrite seat_lines_app, count_vacant_app, length_app, <- app_assoc.
  f_equal; lia.
Qed.

Lemma show_seat_cell g i j seat st :
  seat_at g i j = Some seat -> show_seat g i j st = Some (show_cells [seat] st).
Proof.
  intros Hseat. unfold show_seat. rewrite Hseat. cbn.
  unfold show_cells, count_vacant. cbn [List.filter seat_lines length]. unfold vacantb.
  destruct (String.eqb_spec (passengerName seat) "Empty") as [Hv|Hv]; cbn [length].
  - now rewrite Hv.
  - now rewrite Z.add_0_r.
Qed.

Lemma show_row_cells g i row st :
  vec_at g i = Some row -> length row = 4%nat ->
  show_row g i st = Some (show_cells row st).
Proof.
  intros Hrow Hlen.
  destruct row as [|s0 [|s1 [|s2 [|s3 [|]]]]]; try discriminate Hlen.
  assert (forall j s, vec_at [s0; s1; s2; s3] j = Some s -> seat_at g i j = Some s) as Hcell.
  { intros j s Hj. apply seat_at_Some. eauto. }
  unfold show_row. cbn [for_loop].
  rewrite (show_seat_cell g i _ s0) by now apply Hcell.
  rewrite (show_seat_cell g i _ s1) by now apply Hcell.
  rewrite (show_seat_cell g i _ s2) by now apply Hcell.
  rewrite (show_seat_cell g i _ s3) by now apply Hcell.
  now rewrite !show_cells_app.
Qed.

Lemma show_grid_cells g st :
  grid_ok g -> for_loop (show_row g) 0 8 st = Some (show_cells (concat g) st).
Proof.
  intros [Hlen Hrows].
  destruct g as [|r0 [|r1 [|r2 [|r3 [|r4 [|r5 [|r6 [|r7 [|]]]]]]]]]; try discriminate Hlen.
  repeat match goal with H : Forall _ (_ :: _) |- _ => inversion_clear H end.
  cbn [for_loop].
  rewrite (show_row_cells _ _ r0) by (reflexivity || assumption).
  rewrite (show_row_cells _ _ r1) by (reflexivity || assumption).
  rewrite (show_row_cells _ _ r2) by (reflexivity || assumption).
  rewrite (show_row_cells _ _ r3) by (reflexivity || assumption).
  rewrite (show_row_cells _ _ r4) by (reflexivity || assumption).
  rewrite (show_row_cells _ _ r5) by (reflexivity || assumption).
  rewrite (show_row_cells _ _ r6) by (reflexivity || assumption).
  rewrite (show_row_cells _ _ r7) by (reflexivity || assumption).
  rewrite !show_cells_app. cbn [concat]. now rewrite ?app_nil_r, <- ?app_assoc.
Qed.

(** On an 8 x 4 grid [show] prints one line per seat, in seat order, and
    the number of seats whose occupant is "Empty". *)
Lemma show_grid_ok b :
  grid_ok (seats b) ->
  show b = Some (mkDetailView (busNumber b) (driverName b) (arrivalTime b)
                   (departureTime b) (from b) (to b)
                   (seat_lines 1 (concat (seats b)))
                   (count_vacant (concat (seats b)))).
Proof.
  intros Hg. unfold show. rewrite (show_grid_cells _ _ Hg). reflexivity.
Qed.

(** Seat [n] is the [n-1]-th seat of the grid read row after row. *)
Lemma concat_rows_lookup (g : list (list Seat)) (r c : nat) :
  Forall (fun row => length row = 4%nat) g -> (c < 4)%nat ->
  concat g !! (4 * r + c)%nat = match g !! r with Some row => row !! c | None => None end.
Proof.
  intros Hrows Hc. revert r. induction Hrows as [|row rest Hrow _ IH]; intros r.
  - reflexivity.
  - cbn [concat]. destruct r as [|r].
    + cbn [lookup list_lookup]. apply lookup_app_l. lia.
    + rewrite lookup_app_r by lia. cbn [lookup list_lookup].
      replace (4 * S r + c - length row)%nat with (4 * r + c)%nat by lia. apply IH.
Qed.

Lemma concat_grid_seat g n seat :
  grid_ok g -> seat_number n ->
  seat_at g (seat_row n) (seat_col n) = Some seat ->
  concat g !! Z.to_nat (n - 1) = Some seat.
Proof.
  intros [_ Hrows] Hn (row & [Hr Hrow]%vec_at_Some & [Hc Hcell]%vec_at_Some)%seat_at_Some.
  pose proof (seat_number_decompose n Hn) as Hdec.
  pose proof (seat_col_range n Hn) as Hcol.
  replace (Z.to_nat (n - 1))
    with (4 * Z.to_nat (seat_row n) + Z.to_nat (seat_col n))%nat by lia.
  rewrite (concat_rows_lookup g _ _ Hrows) by lia.
  now rewrite Hrow.
Qed.

(** ** The name "Empty" *)

(** C10. A seat is vacant exactly when its occupant is the string "Empty".
    So reserving a vacant seat [n] for a passenger called "Empty" is reported
    as a reservation but leaves the registry as it was; afterwards the seat
    can be reserved again for any other passenger, whose name replaces it;
    cancelling it is refused as already empty; and [show] prints the seat as
    "Empty" and counts it among the empty seats. *)
Theorem passenger_named_Empty busList number b n seat passenger confirm :
  reachable busList -> resolves busList number b ->
  seat_number n -> getSeat b n = Some seat -> vacant seat ->
  passenger <> "" -> passenger <> "0" ->
  exists busList1 b1 view,
    allotment busList number (Some n) "Empty" =
      Some (busList1, AllotReserved n "Empty" (fare seat)) /\
    busList1 = busList /\
    resolves busList1 number b1 /\ getSeat b1 n = Some seat /\
    (exists busList2 b2,
       allotment busList1 number (Some n) passenger =
         Some (busList2, AllotReserved n passenger (fare seat)) /\
       resolves busList2 number b2 /\
       getSeat b2 n = Some (mkSeat passenger (fare seat))) /\
    cancelSeat busList1 number (Some n) confirm = Some (busList1, CancelAlreadyEmpty) /\
    show b1 = Some view /\
    view_seats view !! Z.to_nat (n - 1) = Some (mkSeatLine n "Empty" (fare seat)) /\
    view_empty view =
      Z.of_nat (length (List.filter (fun line => (line_text line =? "Empty")%string)
                                    (view_seats view))).
Proof.
  intros Hreach Hres Hn Hseat Hvac Hne He.
  pose proof (reachable_ok _ Hreach) as Hok.
  destruct (resolves_ok _ _ _ Hok Hres) as [Hbok Hnumber].
  pose proof Hres as (it & Hfind & Hb).
  destruct (allotment_vacant busList number it b n seat Hnumber Hfind Hb Hn Hseat
              "Empty" Hvac eq_refl) as (g0 & Hset0 & Hrun0).
  assert (<[it := set_seats b g0]> busList = busList) as Hsame.
  { rewrite <- Hvac in Hset0.
    rewrite (seat_assign_name_id _ _ _ _ _ Hseat Hset0), set_seats_same.
    now apply list_insert_id. }
  rewrite Hsame in Hrun0.
  assert (cancelled passenger = false) as Hpass by now apply cancelled_false.
  destruct (allotment_vacant busList number it b n seat Hnumber Hfind Hb Hn Hseat
              passenger Hvac Hpass) as (g2 & Hset2 & Hrun2).
  exists busList, b, (mkDetailView (busNumber b) (driverName b) (arrivalTime b)
                   (departureTime b) (from b) (to b)
                   (seat_lines 1 (concat (seats b)))
                   (count_vacant (concat (seats b)))).
  split; [exact Hrun0|]. split; [reflexivity|]. split; [exact Hres|].
  split; [exact Hseat|]. split.
  { exists (<[it := set_seats b g2]> busList), (set_seats b g2).
    split; [exact Hrun2|]. split.
    - exists it. split.
      + now rewrite (find_if_insert busList it b (set_seats b g2) Hb eq_refl).
      + apply list_lookup_insert_eq. eapply lookup_lt_Some, Hb.
    - exact (seat_at_assign_same _ _ _ _ _ _ Hseat Hset2). }
  split; [now apply (cancelSeat_vacant busList number it b n seat)|].
  split; [apply show_grid_ok, Hbok|].
  cbn [view_seats view_empty]. split.
  - rewrite (seat_lines_lookup 1 _ _ seat)
      by (apply concat_grid_seat; [apply Hbok | exact Hn | exact Hseat]).
    rewrite Hvac. do 2 f_equal. unfold seat_number in Hn. lia.
  - apply count_vacant_lines.
Qed.

(** ** Bus numbers are not checked for duplicates *)

(** C9 (the code departs from it). Installing two buses under the same
    number is accepted: the registry then holds two buses with one number,
    and [find_if] resolves the number to the first, so that a seat reserved
    under that number lands on the first bus and the second cannot be
    addressed. *)
Theorem duplicate_bus_numbers_reachable :
  exists busList b1 b2 busList',
    run [InstallNewBus sample_input; InstallNewBus sample_input] [] = Some busList /\
    reachable busList /\
    busList !! 0%nat = Some b1 /\ busList !! 1%nat = Some b2 /\
    busNumber b1 = "B1" /\ busNumber b2 = "B1" /\
    find_if "B1" busList = Some 0%nat /\
    allotment busList "B1" (Some 5) "Alice" =
      Some (busList', AllotReserved 5 "Alice" 300%float) /\
    busList' !! 1%nat = Some b2.
Proof.
  set (b := mkBus "B1" "Ravi" "10:00" "18:00" "Delhi" "Agra" (seats Bus_new)).
  exists [b; b], b, b. eexists.
  split; [reflexivity|].
  split; [apply (run_reachable [InstallNewBus sample_input; InstallNewBus sample_input] []);
          [constructor | reflexivity]|].
  repeat (split; [reflexivity|]). reflexivity.
Qed.

(** What the lookup does guarantee: it returns the first bus, in order of
    installation, that carries the number. *)
Lemma find_if_first_match number busList it b :
  find_if number busList = Some it -> busList !! it = Some b ->
  busNumber b = number /\
  forall j b', (j < it)%nat -> busList !! j = Some b' -> busNumber b' <> number.
Proof.
  intros (b0 & Hb0 & Hnum & Hfirst)%find_if_Some Hb.
  rewrite Hb in Hb0. injection Hb0 as <-. auto.
Qed.

(** ** The theorems at work on the sample session *)

Lemma sample_registry_reachable : reachable sample_registry.
Proof.
  apply (run_reachable [InstallNewBus sample_input] []); [constructor | reflexivity].
Qed.

Lemma sample_booked_reachable : reachable sample_booked.
Proof.
  apply (run_reachable [InstallNewBus sample_input; ReserveSeat "B1" (Some 5) "Alice"] []);
    [constructor | reflexivity].
Qed.

Lemma sample_registry_resolves : resolves sample_registry "B1" sample_bus.
Proof. exists 0%nat. split; reflexivity. Qed.

Lemma sample_booked_resolves : resolves sample_booked "B1" sample_bus_booked.
Proof. exists 0%nat. split; reflexivity. Qed.

Lemma allotment_reserves_vacant_seat_witness :
  exists busList',
    allotment sample_registry "B1" (Some 5) "Alice" =
      Some (busList', AllotReserved 5 "Alice" 300%float) /\
    length busList' = 1%nat.
Proof.
  destruct (allotment_reserves_vacant_seat sample_registry "B1" sample_bus 5
              (mkSeat "Empty" 300%float) "Alice")
    as (bl & it & b' & Hrun & _ & _ & _ & _ & _ & _ & _ & _ & _ & _ & _ & _ & Hlen & _).
  - exact sample_registry_reachable.
  - exact sample_registry_resolves.
  - unfold seat_number. lia.
  - reflexivity.
  - reflexivity.
  - discriminate.
  - discriminate.
  - exists bl. split; [exact Hrun | exact Hlen].
Defined.

Lemma allotment_occupied_seat_witness :
  allotment sample_booked "B1" (Some 5) "Bob" =
    Some (sample_booked, AllotAlreadyReserved "Alice").
Proof.
  apply (allotment_occupied_seat sample_booked "B1" sample_bus_booked 5
           (mkSeat "Alice" 300%float) "Bob").
  - exact sample_booked_reachable.
  - exact sample_booked_resolves.
  - unfold seat_number. lia.
  - reflexivity.
  - unfold vacant. discriminate.
Defined.

Lemma allotment_then_cancelSeat_witness :
  exists busList1 busList2 msg,
    allotment sample_registry "B1" (Some 5) "Alice" =
      Some (busList1, AllotReserved 5 "Alice" 300%float) /\
    cancelSeat busList1 "B1" (Some 5) "Y" = Some (busList2, msg) /\
    busList2 = sample_registry.
Proof.
  destruct (allotment_then_cancelSeat sample_registry "B1" sample_bus 5
              (mkSeat "Empty" 300%float) "Alice" "Y"%char)
    as (bl1 & bl2 & msg & Hrun1 & Hrun2 & Heq & _).
  - exact sample_registry_reachable.
  - exact sample_registry_resolves.
  - unfold seat_number. lia.
  - reflexivity.
  - reflexivity.
  - discriminate.
  - discriminate.
  - reflexivity.
  - exists bl1, bl2, msg. auto.
Defined.

Lemma seat_number_out_of_range_witness :
  allotment sample_registry "B1" (Some 33) "Alice" =
    Some (sample_registry, AllotInvalidSeat) /\
  cancelSeat sample_registry "B1" (Some 33) "y" =
    Some (sample_registry, CancelInvalidSeat).
Proof.
  apply (seat_number_out_of_range sample_registry "B1" sample_bus 33 "Alice" "y"%char).
  - exact sample_registry_reachable.
  - exact sample_registry_resolves.
  - lia.
  - unfold seat_number. lia.
Defined.

Lemma cancelled_install_adds_nothing_witness :
  main_install sample_registry
    (mkInstallInput "B2" "Asha" "09:00" "" "Pune" "Goa") = sample_registry.
Proof.
  apply (cancelled_install_adds_nothing sample_registry
           (mkInstallInput "B2" "Asha" "09:00" "" "Pune" "Goa")).
  right. right. right. left. left. reflexivity.
Defined.

Lemma search_prints_buses_on_route_witness :
  search_views (searchBusesByRoute sample_registry "Delhi" "Agra") =
    [mkBasicView "B1" "Ravi" "10:00" "18:00" "Delhi -> Agra"].
Proof.
  rewrite (search_prints_buses_on_route sample_registry "Delhi" "Agra").
  - reflexivity.
  - exact sample_registry_reachable.
Defined.

Lemma seat_numbering_covers_grid_witness :
  (0 <= seat_row 5 < 8 /\ 0 <= seat_col 5 < 4) /\
  (exists seat, getSeat sample_bus 5 = Some seat).
Proof.
  destruct (seat_numbering_covers_grid 5 9 7 3 sample_registry sample_bus "B1"
              (Some 5) "Alice" "y"%char) as (Hpos & _ & _ & _ & Hseat & _).
  - unfold seat_number. lia.
  - unfold seat_number. lia.
  - lia.
  - lia.
  - exact sample_registry_reachable.
  - left. reflexivity.
  - split; [exact Hpos | exact Hseat].
Defined.

Lemma fares_stay_default_witness :
  exists b' seat',
    sample_booked !! 0%nat = Some b' /\ getSeat b' 5 = Some seat' /\
    fare seat' = 300%float.
Proof.
  destruct (fares_stay_default sample_registry 0 sample_bus 5
              (ReserveSeat "B1" (Some 5) "Alice") sample_booked)
    as (_ & _ & _ & _ & _ & _ & Hnext).
  - exact sample_registry_reachable.
  - reflexivity.
  - unfold seat_number. lia.
  - reflexivity.
  - exact Hnext.
Defined.

Lemma passenger_named_Empty_witness :
  allotment sample_registry "B1" (Some 5) "Empty" =
    Some (sample_registry, AllotReserved 5 "Empty" 300%float) /\
  cancelSeat sample_registry "B1" (Some 5) "y" =
    Some (sample_registry, CancelAlreadyEmpty).
Proof.
  destruct (passenger_named_Empty sample_registry "B1" sample_bus 5
              (mkSeat "Empty" 300%float) "Alice" "y"%char)
    as (bl1 & b1 & view & Hrun & -> & _ & _ & _ & Hcancel & _).
  - exact sample_registry_reachable.
  - exact sample_registry_resolves.
  - unfold seat_number. lia.
  - reflexivity.
  - reflexivity.
  - discriminate.
  - discriminate.
  - split; [exact Hrun | exact Hcancel].
Defined.

(** * Further properties of the procedures *)

(** ** Every way through [allotment] and [cancelSeat] *)

Lemma cancels_cancelled s : cancels s <-> cancelled s = true.
Proof. unfold cancels. rewrite cancelled_true. tauto. Qed.

Lemma not_cancels_cancelled s : ~ cancels s <-> cancelled s = false.
Proof. rewrite cancels_cancelled. now destruct (cancelled s). Qed.

Lemma allotment_cases busList number seatIn passenger busList' msg :
  allotment busList number seatIn passenger = Some (busList', msg) ->
  (busList' = busList /\ forall n p cost, msg <> AllotReserved n p cost) \/
  (exists n it b seat g',
     seatIn = Some n /\ seat_number n /\
     cancelled number = false /\ cancelled passenger = false /\
     find_if number busList = Some it /\ busList !! it = Some b /\
     seat_at (seats b) (seat_row n) (seat_col n) = Some seat /\
     passengerName seat = "Empty" /\
     seat_assign_name (seats b) (seat_row n) (seat_col n) passenger = Some g' /\
     msg = AllotReserved n passenger (fare seat) /\
     busList' = <[it := set_seats b g']> busList).
Proof.
  unfold allotment.
  destruct (cancelled number) eqn:Hnum; [intros [= <- <-]; now left|].
  destruct (find_if number busList) as [it|] eqn:Hfind; [|intros [= <- <-]; now left].
  destruct seatIn as [n|]; [|intros [= <- <-]; now left].
  destruct (n =? 0) eqn:H0; [intros [= <- <-]; now left|].
  destruct ((n <? 1) || (n >? 32)) eqn:Hrange; [intros [= <- <-]; now left|].
  destruct (busList !! it) as [b|] eqn:Hb; [|discriminate]. cbn.
  destruct (seat_at (seats b) (seat_row n) (seat_col n)) as [seat|] eqn:Hseat;
    [|discriminate]. cbn.
  destruct (String.eqb_spec (passengerName seat) "Empty") as [Hvac|Hocc]; cbn [negb];
    [|intros [= <- <-]; now left].
  destruct (cancelled passenger) eqn:Hpass; [intros [= <- <-]; now left|].
  destruct (seat_assign_name (seats b) (seat_row n) (seat_col n) passenger)
    as [g'|] eqn:Hset; [|discriminate]. cbn.
  rewrite (seat_at_assign_same _ _ _ _ _ _ Hseat Hset). cbn.
  intros [= <- <-]. right. exists n, it, b, seat, g'.
  pose proof (seat_range_check _ H0 Hrange) as Hn. tauto.
Qed.

Lemma cancelSeat_cases busList number seatIn confirm busList' msg :
  cancelSeat busList number seatIn confirm = Some (busList', msg) ->
  (busList' = busList /\ forall n, msg <> CancelDone n) \/
  (exists n it b seat g',
     seatIn = Some n /\ seat_number n /\
     cancelled number = false /\ tolower confirm = "y"%char /\
     find_if number busList = Some it /\ busList !! it = Some b /\
     seat_at (seats b) (seat_row n) (seat_col n) = Some seat /\
     passengerName seat <> "Empty" /\
     seat_assign_name (seats b) (seat_row n) (seat_col n) "Empty" = Some g' /\
     msg = CancelDone n /\
     busList' = <[it := set_seats b g']> busList).
Proof.
  unfold cancelSeat.
  destruct (cancelled number) eqn:Hnum; [intros [= <- <-]; now left|].
  destruct (find_if number busList) as [it|] eqn:Hfind; [|intros [= <- <-]; now left].
  destruct seatIn as [n|]; [|intros [= <- <-]; now left].
  destruct (n =? 0) eqn:H0; [intros [= <- <-]; now left|].
  destruct ((n <? 1) || (n >? 32)) eqn:Hrange; [intros [= <- <-]; now left|].
  destruct (busList !! it) as [b|] eqn:Hb; [|discriminate]. cbn.
  destruct (seat_at (seats b) (seat_row n) (seat_col n)) as [seat|] eqn:Hseat;
    [|discriminate]. cbn.
  destruct (String.eqb_spec (passengerName seat) "Empty") as [Hvac|Hocc];
    [intros [= <- <-]; now left|].
  destruct (Ascii.eqb_spec (tolower confirm) "y"%char) as [Hyes|Hno]; cbn [negb];
    [|intros [= <- <-]; now left].
  destruct (seat_assign_name (seats b) (seat_row n) (seat_col n) "Empty")
    as [g'|] eqn:Hset; [|discriminate]. cbn.
  intros [= <- <-]. right. exists n, it, b, seat, g'.
  pose proof (seat_range_check _ H0 Hrange) as Hn. tauto.
Qed.

(** ** The confirmation character *)

Lemma tolower_y confirm :
  tolower confirm = "y"%char <-> confirm = "y"%char \/ confirm = "Y"%char.
Proof.
  split.
  - destruct confirm as [[] [] [] [] [] [] [] []]; vm_compute; intros H;
      solve [discriminate H | now left | now right].
  - intros [->| ->]; reflexivity.
Qed.

(** X1. Cancelling, with the answer 'y' or 'Y', an occupied seat [n] of the
    bus [number] resolves to is reported as done; the seat is vacant
    afterwards with the fare it had, and every other seat, the fields of the
    bus, every other bus and the length of the registry are as before. *)
Theorem cancelSeat_releases_occupied_seat busList number b n seat confirm :
  reachable busList -> resolves busList number b ->
  seat_number n -> getSeat b n = Some seat -> ~ vacant seat ->
  tolower confirm = "y"%char ->
  exists busList' it b',
    cancelSeat busList number (Some n) confirm = Some (busList', CancelDone n) /\
    find_if number busList = Some it /\ busList !! it = Some b /\
    busList' !! it = Some b' /\
    getSeat b' n = Some (mkSeat "Empty" (fare seat)) /\
    (forall m, m <> n -> getSeat b' m = getSeat b m) /\
    grid_ok (seats b') /\ same_identity b b' /\
    length busList' = length busList /\
    (forall j, j <> it -> busList' !! j = busList !! j).
Proof.
  intros Hreach Hres Hn Hseat Hocc Hyes.
  pose proof (reachable_ok _ Hreach) as Hok.
  destruct (resolves_ok _ _ _ Hok Hres) as [Hbok Hnumber].
  destruct Hres as (it & Hfind & Hb).
  destruct (cancelSeat_confirmed busList number it b n seat Hnumber Hfind Hb Hn Hseat
              confirm Hocc Hyes) as (g' & Hset & Hrun).
  exists (<[it := set_seats b g']> busList), it, (set_seats b g').
  split; [exact Hrun|]. split; [exact Hfind|]. split; [exact Hb|].
  split; [apply list_lookup_insert_eq; eapply lookup_lt_Some, Hb|].
  split; [exact (seat_at_assign_same _ _ _ _ _ _ Hseat Hset)|].
  split.
  { intros m Hm. unfold getSeat. cbn [seats set_seats].
    apply (seat_at_assign_other _ _ _ _ _ _ _ Hset).
    destruct (Z.eq_dec (seat_row m) (seat_row n)) as [Hr|Hr]; [|now left].
    right. intros Hc. apply Hm. now apply seat_position_inj. }
  split; [exact (seat_assign_name_grid_ok _ _ _ _ _ Hset (ok_grid _ Hbok))|].
  split; [now repeat split|].
  split; [apply length_insert|].
  intros j Hj. now apply list_lookup_insert_ne.
Qed.

(** X2. Any answer other than 'y' or 'Y' to the confirmation of
    [cancelSeat] aborts it: the occupied seat and the whole registry stay
    as they were. *)
Theorem cancelSeat_declined_keeps_seat busList number b n seat confirm :
  reachable busList -> resolves busList number b ->
  seat_number n -> getSeat b n = Some seat -> ~ vacant seat ->
  confirm <> "y"%char -> confirm <> "Y"%char ->
  cancelSeat busList number (Some n) confirm = Some (busList, CancelAborted).
Proof.
  intros Hreach Hres Hn Hseat Hocc Hy HY.
  destruct (resolves_ok _ _ _ (reachable_ok _ Hreach) Hres) as [_ Hnumber].
  destruct Hres as (it & Hfind & Hb).
  apply (cancelSeat_declined busList number it b n seat); auto.
  rewrite tolower_y. tauto.
Qed.

(** X3. Cancelling a seat that is vacant is refused as already empty,
    whatever the confirmation would have been, and changes nothing. *)
Theorem cancelSeat_vacant_seat busList number b n seat confirm :
  reachable busList -> resolves busList number b ->
  seat_number n -> getSeat b n = Some seat -> vacant seat ->
  cancelSeat busList number (Some n) confirm = Some (busList, CancelAlreadyEmpty).
Proof.
  intros Hreach Hres Hn Hseat Hvac.
  destruct (resolves_ok _ _ _ (reachable_ok _ Hreach) Hres) as [_ Hnumber].
  destruct Hres as (it & Hfind & Hb).
  now apply (cancelSeat_vacant busList number it b n seat).
Qed.

(** X4. The guard [tolower(confirm) != 'y'] of [cancelSeat] lets exactly
    two characters through: 'y' and 'Y'. *)
Theorem confirmation_accepts_y_only confirm :
  negb (Ascii.eqb (tolower confirm) "y"%char) = false <->
  confirm = "y"%char \/ confirm = "Y"%char.
Proof.
  rewrite negb_false_iff, Ascii.eqb_eq. apply tolower_y.
Qed.

(** ** Failures change nothing *)

(** X5. A number that is neither empty nor "0" and that no bus carries
    is reported as not found by [allotment], by [cancelSeat] and by the
    menu entry that shows a bus; the registry is unchanged and nothing is
    shown. *)
Theorem unknown_number_not_found busList number seatIn passenger confirm :
  ~ cancels number ->
  (forall b, In b busList -> busNumber b <> number) ->
  allotment busList number seatIn passenger = Some (busList, AllotBusNotFound) /\
  cancelSeat busList number seatIn confirm = Some (busList, CancelBusNotFound) /\
  main_show busList number = Some None.
Proof.
  intros Hnum%not_cancels_cancelled Hnone%find_if_None.
  unfold allotment, cancelSeat, main_show. rewrite Hnum, Hnone.
  now destruct busList.
Qed.

(** X6. [allotment] changes the registry only when it reports a
    reservation: after any other message [busList] is what it was. *)
Theorem allotment_failure_keeps_registry busList number seatIn passenger busList' msg :
  allotment busList number seatIn passenger = Some (busList', msg) ->
  (forall n p cost, msg <> AllotReserved n p cost) ->
  busList' = busList.
Proof.
  intros Hrun Hmsg.
  destruct (allotment_cases _ _ _ _ _ _ Hrun)
    as [[-> _]|(n & it & b & seat & g' & _ & _ & _ & _ & _ & _ & _ & _ & _ & -> & _)];
    [reflexivity|].
  now destruct (Hmsg n passenger (fare seat)).
Qed.

(** X7. [cancelSeat] changes the registry only when it reports the
    cancellation as done. *)
Theorem cancelSeat_failure_keeps_registry busList number seatIn confirm busList' msg :
  cancelSeat busList number seatIn confirm = Some (busList', msg) ->
  (forall n, msg <> CancelDone n) ->
  busList' = busList.
Proof.
  intros Hrun Hmsg.
  destruct (cancelSeat_cases _ _ _ _ _ _ Hrun)
    as [[-> _]|(n & it & b & seat & g' & _ & _ & _ & _ & _ & _ & _ & _ & _ & -> & _)];
    [reflexivity|].
  now destruct (Hmsg n).
Qed.

(** X8. A reservation is reported only for the seat number and passenger
    name that were entered, when the number entered is in 1..32, neither
    the bus number nor the passenger name is empty or "0", the bus number
    resolves to a bus whose seat was vacant, and the cost reported is the
    fare of that seat. *)
Theorem allotment_reserved_only_if busList number seatIn passenger busList' n p cost :
  allotment busList number seatIn passenger = Some (busList', AllotReserved n p cost) ->
  seatIn = Some n /\ p = passenger /\ seat_number n /\
  ~ cancels number /\ ~ cancels passenger /\
  exists b seat,
    resolves busList number b /\ getSeat b n = Some seat /\ vacant seat /\
    cost = fare seat.
Proof.
  intros Hrun.
  destruct (allotment_cases _ _ _ _ _ _ Hrun)
    as [[_ Hmsg]|(n' & it & b & seat & g' & -> & Hn & Hnum & Hpass & Hfind & Hb &
                  Hseat & Hvac & _ & [= -> -> ->] & _)].
  - now destruct (Hmsg n p cost).
  - rewrite !not_cancels_cancelled. repeat (split; [assumption || reflexivity|]).
    exists b, seat. repeat split; try assumption. exists it. now split.
Qed.

(** X9. A cancellation is reported as done only for the seat number that
    was entered, when that number is in 1..32, the answer was 'y' or 'Y',
    and the bus number resolves to a bus whose seat was occupied. *)
Theorem cancelSeat_done_only_if busList number seatIn confirm busList' n :
  cancelSeat busList number seatIn confirm = Some (busList', CancelDone n) ->
  seatIn = Some n /\ seat_number n /\ ~ cancels number /\
  (confirm = "y"%char \/ confirm = "Y"%char) /\
  exists b seat,
    resolves busList number b /\ getSeat b n = Some seat /\ ~ vacant seat.
Proof.
  intros Hrun.
  destruct (cancelSeat_cases _ _ _ _ _ _ Hrun)
    as [[_ Hmsg]|(n' & it & b & seat & g' & -> & Hn & Hnum & Hyes & Hfind & Hb &
                  Hseat & Hocc & _ & [= ->] & _)].
  - now destruct (Hmsg n).
  - rewrite not_cancels_cancelled, <- tolower_y.
    repeat (split; [assumption || reflexivity|]).
    exists b, seat. repeat split; try assumption. exists it. now split.
Qed.

(** X10. On a vacant seat, a passenger name that is empty or "0" cancels
    the reservation: nothing is written. *)
Theorem allotment_cancelled_at_name busList number b n seat passenger :
  reachable busList -> resolves busList number b ->
  seat_number n -> getSeat b n = Some seat -> vacant seat ->
  cancels passenger ->
  allotment busList number (Some n) passenger = Some (busList, AllotCancelled).
Proof.
  intros Hreach Hres Hn Hseat Hvac Hpass%cancels_cancelled.
  destruct (resolves_ok _ _ _ (reachable_ok _ Hreach) Hres) as [_ Hnumber].
  destruct Hres as (it & Hfind & Hb).
  unfold allotment. rewrite Hnumber, Hfind.
  destruct (seat_range_check_pass n Hn) as [-> ->].
  rewrite Hb. cbn. unfold getSeat in Hseat. rewrite Hseat. cbn.
  rewrite Hvac. cbn. now rewrite Hpass.
Qed.

(** ** Installing a bus *)

Lemma install_accepted this inp :
  accepted inp ->
  install this inp =
    (mkBus (in_busNumber inp) (in_driverName inp) (in_arrivalTime inp)
           (in_departureTime inp) (in_from inp) (in_to inp) (seats this),
     BusInstalled).
Proof.
  unfold accepted. rewrite !not_cancels_cancelled.
  intros (H1 & H2 & H3 & H4 & H5 & H6). unfold install.
  cbn [busNumber driverName arrivalTime departureTime from to
    set_busNumber set_driverName set_arrivalTime set_departureTime set_from set_to].
  now rewrite H1, H2, H3, H4, H5, H6.
Qed.

(** X11. When none of the six inputs is empty or "0", the menu entry
    that installs a bus appends one bus to the end of the registry: it
    carries the six inputs and 32 vacant seats of fare 300.0, and the
    buses already there keep their places. *)
Theorem accepted_install_appends busList inp :
  accepted inp ->
  snd (install Bus_new inp) = BusInstalled /\
  main_install busList inp = (busList ++ [installed_bus inp])%list /\
  length (main_install busList inp) = S (length busList) /\
  (forall i b, busList !! i = Some b -> main_install busList inp !! i = Some b) /\
  main_install busList inp !! length busList = Some (installed_bus inp) /\
  (forall n, seat_number n ->
     getSeat (installed_bus inp) n = Some (mkSeat "Empty" 300%float)).
Proof.
  intros Hacc. pose proof (install_accepted Bus_new inp Hacc) as Hrun.
  assert (main_install busList inp = (busList ++ [installed_bus inp])%list) as Heq.
  { unfold main_install, getBusNumber. rewrite Hrun. cbn [fst busNumber].
    destruct Hacc as (Hnum & _). unfold cancels in Hnum.
    destruct (String.eqb_spec (in_busNumber inp) "") as [He|_]; [tauto | reflexivity]. }
  rewrite Heq. split; [now rewrite Hrun|]. split; [reflexivity|].
  split; [rewrite length_app; cbn; lia|].
  split; [intros i b Hb; now apply lookup_app_l_Some|].
  split.
  - rewrite lookup_app_r by lia. now rewrite Nat.sub_diag.
  - intros n Hn. exact (Bus_new_seat n Hn).
Qed.

(** X12. Whatever members the bus had before, [install] leaves its number
    empty exactly when it reports a cancellation, so the test of [main]
    on the number tells the two outcomes apart; and [install] never touches
    the seats. *)
Theorem install_number_empty_iff_cancelled this inp :
  (busNumber (fst (install this inp)) = "" <->
   snd (install this inp) = InstallationCancelled) /\
  seats (fst (install this inp)) = seats this.
Proof.
  unfold install.
  cbn [busNumber driverName arrivalTime departureTime from to
    set_busNumber set_driverName set_arrivalTime set_departureTime set_from set_to].
  destruct (cancelled (in_busNumber inp)) eqn:H1; [now cbn|].
  destruct (cancelled (in_driverName inp)); [now cbn|].
  destruct (cancelled (in_arrivalTime inp)); [now cbn|].
  destruct (cancelled (in_departureTime inp)); [now cbn|].
  destruct (cancelled (in_from inp)); [now cbn|].
  destruct (cancelled (in_to inp)); [now cbn|].
  cbn. split; [|reflexivity]. apply cancelled_false in H1. split; [tauto | discriminate].
Qed.

(** ** What a menu entry can do to the registry *)

Lemma Empty_not_cancels : ~ cancels "Empty".
Proof. unfold cancels. intros [H|H]; discriminate H. Qed.

(** A menu entry leaves [busList] alone, appends an accepted bus, or
    writes one name, "Empty" or an accepted passenger name, into one seat. *)
Lemma main_case_effect c busList busList' :
  main_case c busList = Some busList' ->
  busList' = busList \/
  (exists inp, accepted inp /\ busList' = (busList ++ [installed_bus inp])%list) \/
  (exists it b n seat g' name,
     busList !! it = Some b /\ seat_number n /\
     seat_at (seats b) (seat_row n) (seat_col n) = Some seat /\
     seat_assign_name (seats b) (seat_row n) (seat_col n) name = Some g' /\
     ~ cancels name /\
     busList' = <[it := set_seats b g']> busList).
Proof.
  destruct c as [inp|number seatIn passenger|number| |number seatIn confirm|o d];
    cbn [main_case]; intros Hstep.
  - injection Hstep as <-.
    destruct (install_Bus_new inp) as [[Hnum _]|(Heq & H1 & H2 & H3 & H4 & H5 & H6)].
    + left. unfold main_install, getBusNumber. now rewrite Hnum.
    + right. left. exists inp.
      assert (accepted inp) as Hacc
        by (unfold accepted; rewrite !not_cancels_cancelled; tauto).
      split; [exact Hacc|].
      unfold main_install, getBusNumber. rewrite (install_accepted _ _ Hacc).
      cbn [fst busNumber]. apply cancelled_false in H1.
      destruct (String.eqb_spec (in_busNumber inp) "") as [He|_]; [tauto | reflexivity].
  - destruct busList as [|b0 rest]; [injection Hstep as <-; now left|].
    destruct (allotment (b0 :: rest) number seatIn passenger) as [[bl msg]|] eqn:E;
      [|discriminate].
    injection Hstep as <-.
    destruct (allotment_cases _ _ _ _ _ _ E)
      as [[-> _]|(n & it & b & seat & g' & _ & Hn & _ & Hpass & _ & Hb & Hseat & _ &
                  Hset & _ & ->)]; [now left|].
    right. right. exists it, b, n, seat, g', passenger.
    rewrite not_cancels_cancelled. tauto.
  - destruct (main_show busList number); [|discriminate].
    injection Hstep as <-. now left.
  - injection Hstep as <-. now left.
  - destruct busList as [|b0 rest]; [injection Hstep as <-; now left|].
    destruct (cancelSeat (b0 :: rest) number seatIn confirm) as [[bl msg]|] eqn:E;
      [|discriminate].
    injection Hstep as <-.
    destruct (cancelSeat_cases _ _ _ _ _ _ E)
      as [[-> _]|(n & it & b & seat & g' & _ & Hn & _ & _ & _ & Hb & Hseat & _ &
                  Hset & _ & ->)]; [now left|].
    right. right. exists it, b, n, seat, g', "Empty".
    pose proof Empty_not_cancels. tauto.
  - injection Hstep as <-. now left.
Qed.

Lemma same_identity_refl b : same_identity b b.
Proof. now repeat split. Qed.

Lemma same_identity_trans b1 b2 b3 :
  same_identity b1 b2 -> same_identity b2 b3 -> same_identity b1 b3.
Proof. unfold same_identity. intuition congruence. Qed.

Lemma main_case_identity c busList busList' i b :
  main_case c busList = Some busList' -> busList !! i = Some b ->
  exists b', busList' !! i = Some b' /\ same_identity b b'.
Proof.
  intros Hstep Hi.
  destruct (main_case_effect _ _ _ Hstep)
    as [->|[(inp & _ & ->)|(it & b0 & n & seat & g' & name & Hb0 & _ & _ & _ & _ & ->)]].
  - exists b. split; [exact Hi | apply same_identity_refl].
  - exists b. split; [now apply lookup_app_l_Some | apply same_identity_refl].
  - destruct (Nat.eq_dec it i) as [->|Hne].
    + rewrite Hi in Hb0. injection Hb0 as <-. exists (set_seats b g').
      split; [apply list_lookup_insert_eq; eapply lookup_lt_Some, Hi|].
      now repeat split.
    + exists b. rewrite list_lookup_insert_ne by exact Hne.
      split; [exact Hi | apply same_identity_refl].
Qed.

(** X13. No session removes, moves or renames a bus: a bus found at a
    position of [busList] is found at the same position after any sequence
    of menu choices, with the same number, driver, times and route; the
    registry never gets shorter. *)
Theorem buses_keep_identity cs busList busList' i b :
  run cs busList = Some busList' -> busList !! i = Some b ->
  (exists b', busList' !! i = Some b' /\ same_identity b b') /\
  (length busList <= length busList')%nat.
Proof.
  revert busList b. induction cs as [|c rest IH]; intros busList b Hrun Hi.
  - injection Hrun as <-. split; [|lia].
    exists b. split; [exact Hi | apply same_identity_refl].
  - cbn [run] in Hrun. destruct (main_case c busList) as [bl1|] eqn:Hstep; [|discriminate].
    destruct (main_case_identity _ _ _ _ _ Hstep Hi) as (b1 & Hb1 & Hid1).
    destruct (IH _ _ Hrun Hb1) as [(b' & Hb' & Hid') Hlen].
    split.
    + exists b'. split; [exact Hb' | eapply same_identity_trans; eauto].
    + assert (length busList <= length bl1)%nat; [|lia].
      destruct (main_case_effect _ _ _ Hstep)
        as [->|[(inp & _ & ->)|(it & b0 & n & seat & g' & name & _ & _ & _ & _ & _ & ->)]];
        rewrite ?length_app, ?length_insert; lia.
Qed.

(** ** Invariants of the registry *)

Lemma seat_assign_name_names_ok g r c name g' :
  seat_assign_name g r c name = Some g' -> ~ cancels name ->
  names_ok g -> names_ok g'.
Proof.
  intros Hset Hname Hf.
  destruct (seat_assign_name_inv _ _ _ _ _ Hset) as [seat Hseat].
  destruct (seat_assign_name_Some g r c name seat Hseat) as (row & Hrow & Heq).
  rewrite Heq in Hset. injection Hset as <-.
  apply vec_at_Some in Hrow as [_ Hrow].
  unfold names_ok in *. rewrite Forall_lookup in Hf.
  pose proof (Hf _ _ Hrow) as Hrowf.
  apply Forall_insert; [now apply Forall_lookup|].
  apply Forall_insert; [exact Hrowf | exact Hname].
Qed.

Lemma Bus_new_names_ok : names_ok (seats Bus_new).
Proof.
  repeat constructor; exact Empty_not_cancels.
Qed.

Lemma reachable_fields_names busList :
  reachable busList -> Forall (fun b => fields_ok b /\ names_ok (seats b)) busList.
Proof.
  induction 1 as [|c busList busList' _ IH Hstep]; [constructor|].
  destruct (main_case_effect _ _ _ Hstep)
    as [->|[(inp & Hacc & ->)|(it & b & n & seat & g' & name & Hb & _ & _ & Hset & Hname & ->)]].
  - exact IH.
  - apply Forall_app. split; [exact IH|]. constructor; [|constructor].
    split; [exact Hacc | apply Bus_new_names_ok].
  - apply Forall_insert; [exact IH|].
    rewrite Forall_lookup in IH. destruct (IH _ _ Hb) as [Hfields Hnames].
    split; [exact Hfields|]. cbn [seats set_seats].
    eapply seat_assign_name_names_ok; eauto.
Qed.

(** X14. Every bus of a registry the program can hold has a number, a
    driver, an arrival time, a departure time, an origin and a destination
    that are neither empty nor "0". *)
Theorem registered_fields_accepted busList b :
  reachable busList -> In b busList -> fields_ok b.
Proof.
  intros Hreach%reachable_fields_names Hin%list_elem_of_In.
  rewrite Forall_forall in Hreach. now apply Hreach.
Qed.

(** X15. In a registry the program can hold no seat is ever occupied by
    the empty name or by "0": the occupant is "Empty" or a passenger name
    its prompt accepted. *)
Theorem occupants_accepted busList b n seat :
  reachable busList -> In b busList -> getSeat b n = Some seat ->
  passengerName seat <> "" /\ passengerName seat <> "0".
Proof.
  intros Hreach%reachable_fields_names Hin%list_elem_of_In Hseat.
  rewrite Forall_forall in Hreach. destruct (Hreach _ Hin) as [_ Hnames].
  apply seat_at_Some in Hseat as (row & [_ Hrow]%vec_at_Some & [_ Hcell]%vec_at_Some).
  unfold names_ok in Hnames. rewrite Forall_lookup in Hnames.
  pose proof (Hnames _ _ Hrow) as Hrowf. rewrite Forall_lookup in Hrowf.
  pose proof (Hrowf _ _ Hcell) as H. unfold cancels in H. tauto.
Qed.

(** X16. In a registry the program can hold every reservation that
    succeeds reports the cost 300.0. *)
Theorem reservation_costs_default busList number seatIn passenger busList' n p cost :
  reachable busList ->
  allotment busList number seatIn passenger = Some (busList', AllotReserved n p cost) ->
  cost = 300%float.
Proof.
  intros Hok%reachable_ok Hrun.
  destruct (allotment_cases _ _ _ _ _ _ Hrun)
    as [[_ Hmsg]|(n' & it & b & seat & g' & _ & _ & _ & _ & _ & Hb & Hseat & _ & _ &
                  [= -> -> ->] & _)].
  - now destruct (Hmsg n p cost).
  - unfold registry_ok in Hok. rewrite Forall_lookup in Hok.
    exact (fares_ok_seat _ _ _ _ (ok_fares _ (Hok _ _ Hb)) Hseat).
Qed.

(** X17. On a bus with an 8 x 4 grid [getSeat] is defined exactly for the
    seat numbers 1..32 that the range check of [allotment] and [cancelSeat]
    lets through. *)
Theorem getSeat_defined_iff b n :
  grid_ok (seats b) -> (is_Some (getSeat b n) <-> seat_number n).
Proof.
  intros Hg. split.
  - intros [seat Hseat]. unfold getSeat in Hseat.
    apply seat_at_Some in Hseat as (row & Hrow & Hcell).
    pose proof (grid_ok_row _ _ _ Hg Hrow) as Hlen.
    apply vec_at_range in Hrow, Hcell. destruct Hg as [Hlen8 _].
    rewrite Hlen8 in Hrow. rewrite Hlen in Hcell.
    unfold seat_number. unfold seat_row, seat_col in *.
    pose proof (Z.quot_rem' (n - 1) 4). lia.
  - intros Hn. destruct (getSeat_in_grid b n Hg Hn) as [seat Hseat]. now exists seat.
Qed.

(** ** What [show] prints *)

Lemma length_seat_lines index l : length (seat_lines index l) = length l.
Proof.
  revert index. induction l as [|seat rest IH]; intros index; cbn [seat_lines length];
    [reflexivity | now rewrite IH].
Qed.

Lemma count_vacant_bounds l : 0 <= count_vacant l <= Z.of_nat (length l).
Proof.
  unfold count_vacant. pose proof (List.filter_length_le vacantb l). lia.
Qed.

(** X18. For a bus of a registry the program can hold, [show] prints the
    six fields of the bus, then 32 seat lines; line [n] carries the number
    [n], the occupant of seat [n] and its fare; the total printed is the
    number of lines reading "Empty", between 0 and 32. *)
Theorem show_prints_every_seat busList b n seat :
  reachable busList -> In b busList ->
  seat_number n -> getSeat b n = Some seat ->
  exists view,
    show b = Some view /\
    view_busNumber view = busNumber b /\ view_driver view = driverName b /\
    view_arrival view = arrivalTime b /\ view_departure view = departureTime b /\
    view_from view = from b /\ view_to view = to b /\
    length (view_seats view) = 32%nat /\
    view_seats view !! Z.to_nat (n - 1) =
      Some (mkSeatLine n (passengerName seat) (fare seat)) /\
    view_empty view =
      Z.of_nat (length (List.filter (fun line => (line_text line =? "Empty")%string)
                                    (view_seats view))) /\
    0 <= view_empty view <= 32.
Proof.
  intros Hok%reachable_ok Hin%list_elem_of_In Hn Hseat.
  unfold registry_ok in Hok. rewrite Forall_forall in Hok.
  pose proof (ok_grid _ (Hok _ Hin)) as Hg.
  eexists. split; [exact (show_grid_ok b Hg)|].
  cbn [view_busNumber view_driver view_arrival view_departure view_from view_to
       view_seats view_empty].
  repeat (split; [reflexivity|]).
  split; [now rewrite length_seat_lines, grid_ok_32|].
  split.
  - rewrite (seat_lines_lookup 1 _ _ seat) by now apply concat_grid_seat.
    do 2 f_equal. unfold seat_number in Hn. lia.
  - split; [apply count_vacant_lines|].
    pose proof (count_vacant_bounds (concat (seats b))) as Hb.
    rewrite (grid_ok_32 _ Hg) in Hb. lia.
Qed.

Lemma count_vacant_cons seat l :
  count_vacant (seat :: l) = vacancy seat + count_vacant l.
Proof.
  unfold count_vacant, vacancy. cbn [List.filter].
  destruct (vacantb seat); cbn [length]; lia.
Qed.

Lemma count_vacant_insert l i x y :
  l !! i = Some x ->
  count_vacant (<[i := y]> l) = count_vacant l - vacancy x + vacancy y.
Proof.
  revert i. induction l as [|z rest IH]; intros [|i] Hi; try discriminate Hi.
  - injection Hi as ->. cbn [insert list_insert]. rewrite !count_vacant_cons. lia.
  - change (rest !! i = Some x) in Hi.
    change (<[S i := y]> (z :: rest)) with (z :: <[i := y]> rest).
    rewrite !count_vacant_cons, (IH _ Hi). lia.
Qed.

Lemma count_vacant_concat_insert g r row row' :
  g !! r = Some row ->
  count_vacant (concat (<[r := row']> g)) =
    count_vacant (concat g) - count_vacant row + count_vacant row'.
Proof.
  intros Hrow. rewrite insert_take_drop by (eapply lookup_lt_Some, Hrow).
  rewrite <- (take_drop_middle g r row Hrow) at 3.
  rewrite !concat_app. cbn [concat]. rewrite !count_vacant_app. lia.
Qed.

(** Writing a name into a seat moves the count of vacant seats by the
    difference of the two vacancies. *)
Lemma count_vacant_assign g r c name seat g' :
  seat_at g r c = Some seat -> seat_assign_name g r c name = Some g' ->
  count_vacant (concat g') =
    count_vacant (concat g) - vacancy seat + vacancy (set_passengerName seat name).
Proof.
  intros Hseat Hset.
  destruct (seat_assign_name_Some g r c name seat Hseat) as (row & Hrow & Heq).
  rewrite Heq in Hset. injection Hset as <-.
  apply seat_at_Some in Hseat as (row' & Hrow' & Hcell).
  rewrite Hrow in Hrow'. injection Hrow' as <-.
  apply vec_at_Some in Hrow as [_ Hrow]. apply vec_at_Some in Hcell as [_ Hcell].
  rewrite (count_vacant_concat_insert g _ row _ Hrow).
  rewrite (count_vacant_insert row _ seat _ Hcell). lia.
Qed.

(** X19. Reserving a vacant seat for a passenger whose name is accepted
    and is not "Empty" lowers the total of empty seats [show] prints for
    that bus by one. *)
Theorem allotment_lowers_empty_count busList number b n seat passenger :
  reachable busList -> resolves busList number b ->
  seat_number n -> getSeat b n = Some seat -> vacant seat ->
  ~ cancels passenger -> passenger <> "Empty" ->
  exists busList' b' view view',
    allotment busList number (Some n) passenger =
      Some (busList', AllotReserved n passenger (fare seat)) /\
    resolves busList' number b' /\
    show b = Some view /\ show b' = Some view' /\
    view_empty view' = view_empty view - 1.
Proof.
  intros Hreach Hres Hn Hseat Hvac Hpass%not_cancels_cancelled Hname.
  pose proof (reachable_ok _ Hreach) as Hok.
  destruct (resolves_ok _ _ _ Hok Hres) as [Hbok Hnumber].
  destruct Hres as (it & Hfind & Hb).
  destruct (allotment_vacant busList number it b n seat Hnumber Hfind Hb Hn Hseat
              passenger Hvac Hpass) as (g' & Hset & Hrun).
  pose proof (seat_assign_name_grid_ok _ _ _ _ _ Hset (ok_grid _ Hbok)) as Hg'.
  exists (<[it := set_seats b g']> busList), (set_seats b g').
  eexists. eexists. split; [exact Hrun|]. split.
  { exists it. split.
    - now rewrite (find_if_insert busList it b (set_seats b g') Hb eq_refl).
    - apply list_lookup_insert_eq. eapply lookup_lt_Some, Hb. }
  split; [exact (show_grid_ok b (ok_grid _ Hbok))|].
  split; [exact (show_grid_ok (set_seats b g') Hg')|].
  cbn [view_empty seats set_seats].
  rewrite (count_vacant_assign _ _ _ _ _ _ Hseat Hset).
  unfold vacancy, vacantb. cbn [passengerName set_passengerName].
  rewrite Hvac. apply String.eqb_neq in Hname. rewrite Hname. cbn. lia.
Qed.

(** X20. Cancelling, with confirmation, an occupied seat raises the total
    of empty seats [show] prints for that bus by one. *)
Theorem cancelSeat_raises_empty_count busList number b n seat confirm :
  reachable busList -> resolves busList number b ->
  seat_number n -> getSeat b n = Some seat -> ~ vacant seat ->
  tolower confirm = "y"%char ->
  exists busList' b' view view',
    cancelSeat busList number (Some n) confirm = Some (busList', CancelDone n) /\
    resolves busList' number b' /\
    show b = Some view /\ show b' = Some view' /\
    view_empty view' = view_empty view + 1.
Proof.
  intros Hreach Hres Hn Hseat Hocc Hyes.
  pose proof (reachable_ok _ Hreach) as Hok.
  destruct (resolves_ok _ _ _ Hok Hres) as [Hbok Hnumber].
  destruct Hres as (it & Hfind & Hb).
  destruct (cancelSeat_confirmed busList number it b n seat Hnumber Hfind Hb Hn Hseat
              confirm Hocc Hyes) as (g' & Hset & Hrun).
  pose proof (seat_assign_name_grid_ok _ _ _ _ _ Hset (ok_grid _ Hbok)) as Hg'.
  exists (<[it := set_seats b g']> busList), (set_seats b g').
  eexists. eexists. split; [exact Hrun|]. split.
  { exists it. split.
    - now rewrite (find_if_insert busList it b (set_seats b g') Hb eq_refl).
    - apply list_lookup_insert_eq. eapply lookup_lt_Some, Hb. }
  split; [exact (show_grid_ok b (ok_grid _ Hbok))|].
  split; [exact (show_grid_ok (set_seats b g') Hg')|].
  cbn [view_empty seats set_seats].
  rewrite (count_vacant_assign _ _ _ _ _ _ Hseat Hset).
  unfold vacancy, vacantb. cbn [passengerName set_passengerName].
  apply String.eqb_neq in Hocc. rewrite Hocc. cbn. lia.
Qed.

(** X21. The menu entry that shows a bus prints, for a number that
    resolves, the details of the first bus carrying it. *)
Theorem main_show_resolved busList number b :
  reachable busList -> resolves busList number b ->
  exists view,
    main_show busList number = Some (Some view) /\ show b = Some view /\
    view_busNumber view = number.
Proof.
  intros Hreach Hres.
  destruct (resolves_ok _ _ _ (reachable_ok _ Hreach) Hres) as [Hbok Hnumber].
  destruct (resolves_number _ _ _ Hres) as [_ Hnum].
  destruct Hres as (it & Hfind & Hb).
  eexists. split; [|split; [exact (show_grid_ok b (ok_grid _ Hbok)) | exact Hnum]].
  unfold main_show. destruct busList as [|b0 rest]; [discriminate Hfind|].
  rewrite Hnumber, Hfind, Hb. cbn [mbind option_bind].
  now rewrite (show_grid_ok b (ok_grid _ Hbok)).
Qed.

(** ** Listing and searching *)

Lemma showAll_loop_all busList out :
  (forall b, In b busList -> busNumber b <> "") ->
  showAll_loop busList out = (out ++ map printBasicInfo busList)%list.
Proof.
  revert out. induction busList as [|b rest IH]; intros out Hnum; cbn [showAll_loop map].
  - now rewrite app_nil_r.
  - unfold getBusNumber.
    destruct (String.eqb_spec (busNumber b) "") as [He|_].
    + destruct (Hnum b); [now left | exact He].
    + rewrite IH by (intros b' Hb'; apply Hnum; now right).
      now rewrite <- app_assoc.
Qed.

(** X22. On a registry the program can hold, [showAllBuses] skips no bus:
    it prints the summary of every bus, in registry order, and reports
    that no buses are available exactly when the registry is empty. *)
Theorem showAllBuses_lists_every_bus busList :
  reachable busList ->
  showAllBuses busList =
    match busList with
    | [] => NoBusesAvailable
    | _ => Listing (map printBasicInfo busList)
    end.
Proof.
  intros Hok%reachable_ok. destruct busList as [|b0 rest]; [reflexivity|].
  unfold showAllBuses. f_equal.
  change (map printBasicInfo (b0 :: rest))
    with ([] ++ map printBasicInfo (b0 :: rest))%list.
  apply showAll_loop_all.
  intros b Hin%list_elem_of_In. unfold registry_ok in Hok. rewrite Forall_forall in Hok.
  pose proof (ok_number _ (Hok _ Hin)) as H. apply cancelled_false in H. tauto.
Qed.

Lemma on_route_some origin destination busList :
  forallb (fun b => negb (matchesRoute b origin destination)) busList = false ->
  on_route origin destination busList <> [].
Proof.
  unfold on_route. induction busList as [|b rest IH]; cbn [forallb]; [discriminate|].
  rewrite filter_cons. destruct (matchesRoute b origin destination) eqn:Hm; cbn [negb andb].
  - intros _. now rewrite decide_True by now apply matchesRoute_true.
  - intros Hrest. rewrite decide_False; [now apply IH|].
    rewrite <- matchesRoute_true. congruence.
Qed.

(** X23. The message of [searchBusesByRoute] on a registry that is not
    empty: an origin or destination that is empty or "0" cancels the
    search; otherwise the buses on the route are printed when there are
    some, and the route is reported as unmatched when there are none. *)
Theorem search_message busList origin destination :
  busList <> [] ->
  (cancels origin \/ cancels destination ->
   searchBusesByRoute busList origin destination = SearchCancelled) /\
  (~ cancels origin -> ~ cancels destination ->
   searchBusesByRoute busList origin destination =
     match on_route origin destination busList with
     | [] => SearchNoMatch origin destination
     | _ => SearchFound (map printBasicInfo (on_route origin destination busList))
     end).
Proof.
  intros Hne. destruct busList as [|b0 rest]; [now destruct Hne|].
  unfold searchBusesByRoute. split.
  - rewrite !cancels_cancelled. intros [-> | ->]; [reflexivity|].
    now destruct (cancelled origin).
  - rewrite !not_cancels_cancelled. intros -> ->.
    rewrite search_loop_spec. cbn [orb app].
    destruct (forallb _ (b0 :: rest)) eqn:Hall; cbn [negb].
    + now rewrite (on_route_none _ _ _ Hall).
    + pose proof (on_route_some _ _ _ Hall) as Hsome.
      now destruct (on_route origin destination (b0 :: rest)).
Qed.

(** ** Reserving and cancelling in sequence *)

(** X24. Once a seat is reserved for a passenger whose name is not
    "Empty", every further reservation of that seat is refused, naming that
    passenger, and changes nothing. *)
Theorem no_double_booking busList number b n seat passenger passenger2 :
  reachable busList -> resolves busList number b ->
  seat_number n -> getSeat b n = Some seat -> vacant seat ->
  ~ cancels passenger -> passenger <> "Empty" ->
  exists busList1,
    allotment busList number (Some n) passenger =
      Some (busList1, AllotReserved n passenger (fare seat)) /\
    allotment busList1 number (Some n) passenger2 =
      Some (busList1, AllotAlreadyReserved passenger).
Proof.
  intros Hreach Hres Hn Hseat Hvac Hpass%not_cancels_cancelled Hname.
  destruct (resolves_ok _ _ _ (reachable_ok _ Hreach) Hres) as [_ Hnumber].
  destruct Hres as (it & Hfind & Hb).
  destruct (allotment_vacant busList number it b n seat Hnumber Hfind Hb Hn Hseat
              passenger Hvac Hpass) as (g1 & Hset1 & Hrun1).
  exists (<[it := set_seats b g1]> busList). split; [exact Hrun1|].
  apply (allotment_occupied _ number it (set_seats b g1) n
           (set_passengerName seat passenger)); auto.
  - now rewrite (find_if_insert busList it b (set_seats b g1) Hb eq_refl).
  - apply list_lookup_insert_eq. eapply lookup_lt_Some, Hb.
  - exact (seat_at_assign_same _ _ _ _ _ _ Hseat Hset1).
Qed.

(** X25. A seat cancelled with confirmation can be reserved again at
    once: the new passenger gets it at the fare the seat had. *)
Theorem cancelSeat_then_allotment busList number b n seat confirm passenger :
  reachable busList -> resolves busList number b ->
  seat_number n -> getSeat b n = Some seat -> ~ vacant seat ->
  tolower confirm = "y"%char -> ~ cancels passenger ->
  exists busList1 busList2 b2,
    cancelSeat busList number (Some n) confirm = Some (busList1, CancelDone n) /\
    allotment busList1 number (Some n) passenger =
      Some (busList2, AllotReserved n passenger (fare seat)) /\
    resolves busList2 number b2 /\
    getSeat b2 n = Some (mkSeat passenger (fare seat)).
Proof.
  intros Hreach Hres Hn Hseat Hocc Hyes Hpass%not_cancels_cancelled.
  destruct (resolves_ok _ _ _ (reachable_ok _ Hreach) Hres) as [_ Hnumber].
  destruct Hres as (it & Hfind & Hb).
  destruct (cancelSeat_confirmed busList number it b n seat Hnumber Hfind Hb Hn Hseat
              confirm Hocc Hyes) as (g1 & Hset1 & Hrun1).
  set (b1 := set_seats b g1). set (busList1 := <[it := b1]> busList).
  assert (find_if number busList1 = Some it) as Hfind1
    by (unfold busList1; now rewrite (find_if_insert busList it b b1 Hb eq_refl)).
  assert (busList1 !! it = Some b1) as Hb1
    by (apply list_lookup_insert_eq; eapply lookup_lt_Some, Hb).
  pose proof (seat_at_assign_same _ _ _ _ _ _ Hseat Hset1) as Hseat1.
  destruct (allotment_vacant busList1 number it b1 n _ Hnumber Hfind1 Hb1 Hn Hseat1
              passenger eq_refl Hpass) as (g2 & Hset2 & Hrun2).
  exists busList1, (<[it := set_seats b1 g2]> busList1), (set_seats b1 g2).
  split; [exact Hrun1|]. split; [exact Hrun2|]. split.
  - exists it. split.
    + now rewrite (find_if_insert busList1 it b1 (set_seats b1 g2) Hb1 eq_refl).
    + apply list_lookup_insert_eq. eapply lookup_lt_Some, Hb1.
  - exact (seat_at_assign_same _ _ _ _ _ _ Hseat1 Hset2).
Qed.

(** ** The further properties on the sample sessions *)

Lemma sample_fleet_reachable : reachable sample_fleet.
Proof.
  apply (run_reachable [InstallNewBus sample_input; InstallNewBus sample_input2;
                        ReserveSeat "B1" (Some 5) "Alice"] []);
    [constructor | reflexivity].
Qed.

Lemma cancelSeat_releases_occupied_seat_witness :
  exists busList',
    cancelSeat sample_booked "B1" (Some 5) "y" = Some (busList', CancelDone 5) /\
    length busList' = 1%nat.
Proof.
  destruct (cancelSeat_releases_occupied_seat sample_booked "B1" sample_bus_booked 5
              (mkSeat "Alice" 300%float) "y"%char)
    as (bl & it & b' & Hrun & _ & _ & _ & _ & _ & _ & _ & Hlen & _).
  - exact sample_booked_reachable.
  - exact sample_booked_resolves.
  - unfold seat_number. lia.
  - reflexivity.
  - unfold vacant. discriminate.
  - reflexivity.
  - exists bl. split; [exact Hrun | exact Hlen].
Defined.

Lemma cancelSeat_declined_keeps_seat_witness :
  cancelSeat sample_booked "B1" (Some 5) "n" = Some (sample_booked, CancelAborted).
Proof.
  apply (cancelSeat_declined_keeps_seat sample_booked "B1" sample_bus_booked 5
           (mkSeat "Alice" 300%float) "n"%char).
  - exact sample_booked_reachable.
  - exact sample_booked_resolves.
  - unfold seat_number. lia.
  - reflexivity.
  - unfold vacant. discriminate.
  - discriminate.
  - discriminate.
Defined.

Lemma cancelSeat_vacant_seat_witness :
  cancelSeat sample_booked "B1" (Some 6) "y" = Some (sample_booked, CancelAlreadyEmpty).
Proof.
  apply (cancelSeat_vacant_seat sample_booked "B1" sample_bus_booked 6
           (mkSeat "Empty" 300%float) "y"%char).
  - exact sample_booked_reachable.
  - exact sample_booked_resolves.
  - unfold seat_number. lia.
  - reflexivity.
  - reflexivity.
Defined.

Lemma unknown_number_not_found_witness :
  allotment sample_registry "B7" (Some 5) "Alice" =
    Some (sample_registry, AllotBusNotFound) /\
  cancelSeat sample_registry "B7" (Some 5) "y" =
    Some (sample_registry, CancelBusNotFound) /\
  main_show sample_registry "B7" = Some None.
Proof.
  apply (unknown_number_not_found sample_registry "B7" (Some 5) "Alice" "y"%char).
  - unfold cancels. intros [H|H]; discriminate H.
  - intros b [<-|[]]. discriminate.
Defined.

Lemma allotment_failure_keeps_registry_witness :
  allotment sample_booked "B1" (Some 5) "Bob" =
    Some (sample_booked, AllotAlreadyReserved "Alice") /\
  sample_booked = sample_booked.
Proof.
  split; [reflexivity|].
  apply (allotment_failure_keeps_registry sample_booked "B1" (Some 5) "Bob"
           sample_booked (AllotAlreadyReserved "Alice")).
  - reflexivity.
  - discriminate.
Defined.

Lemma cancelSeat_failure_keeps_registry_witness :
  cancelSeat sample_booked "B1" (Some 5) "n" = Some (sample_booked, CancelAborted) /\
  sample_booked = sample_booked.
Proof.
  split; [reflexivity|].
  apply (cancelSeat_failure_keeps_registry sample_booked "B1" (Some 5) "n"%char
           sample_booked CancelAborted).
  - reflexivity.
  - discriminate.
Defined.

Lemma allotment_reserved_only_if_witness :
  allotment sample_registry "B1" (Some 5) "Alice" =
    Some (sample_booked, AllotReserved 5 "Alice" 300%float) /\
  seat_number 5 /\ ~ cancels "Alice".
Proof.
  split; [reflexivity|].
  destruct (allotment_reserved_only_if sample_registry "B1" (Some 5) "Alice"
              sample_booked 5 "Alice" 300%float eq_refl)
    as (_ & _ & Hn & _ & Hpass & _).
  split; [exact Hn | exact Hpass].
Defined.

Lemma cancelSeat_done_only_if_witness :
  cancelSeat sample_booked "B1" (Some 5) "Y" = Some (sample_registry, CancelDone 5) /\
  seat_number 5 /\ ("Y"%char = "y"%char \/ "Y"%char = "Y"%char).
Proof.
  split; [reflexivity|].
  destruct (cancelSeat_done_only_if sample_booked "B1" (Some 5) "Y"%char
              sample_registry 5 eq_refl) as (_ & Hn & _ & Hyes & _).
  split; [exact Hn | exact Hyes].
Defined.

Lemma allotment_cancelled_at_name_witness :
  allotment sample_registry "B1" (Some 5) "" = Some (sample_registry, AllotCancelled).
Proof.
  apply (allotment_cancelled_at_name sample_registry "B1" sample_bus 5
           (mkSeat "Empty" 300%float) "").
  - exact sample_registry_reachable.
  - exact sample_registry_resolves.
  - unfold seat_number. lia.
  - reflexivity.
  - reflexivity.
  - left. reflexivity.
Defined.

Lemma sample_input2_accepted : accepted sample_input2.
Proof.
  unfold accepted, cancels. cbn.
  repeat split; intros [H|H]; discriminate H.
Qed.

Lemma accepted_install_appends_witness :
  main_install sample_registry sample_input2 =
    (sample_registry ++ [installed_bus sample_input2])%list /\
  length (main_install sample_registry sample_input2) = 2%nat.
Proof.
  destruct (accepted_install_appends sample_registry sample_input2
              sample_input2_accepted) as (_ & Heq & Hlen & _).
  split; [exact Heq | exact Hlen].
Defined.

Lemma buses_keep_identity_witness :
  exists b', sample_fleet !! 0%nat = Some b' /\ same_identity sample_bus b'.
Proof.
  destruct (buses_keep_identity
              [InstallNewBus sample_input2; ReserveSeat "B1" (Some 5) "Alice"]
              sample_registry sample_fleet 0 sample_bus) as [Hid _].
  - reflexivity.
  - reflexivity.
  - exact Hid.
Defined.

Lemma registered_fields_accepted_witness : fields_ok sample_bus_booked.
Proof.
  apply (registered_fields_accepted sample_booked sample_bus_booked).
  - exact sample_booked_reachable.
  - left. reflexivity.
Defined.

Lemma occupants_accepted_witness : "Alice" <> "" /\ "Alice" <> "0".
Proof.
  apply (occupants_accepted sample_booked sample_bus_booked 5 (mkSeat "Alice" 300%float)).
  - exact sample_booked_reachable.
  - left. reflexivity.
  - reflexivity.
Defined.

Lemma reservation_costs_default_witness :
  allotment sample_registry "B1" (Some 5) "Alice" =
    Some (sample_booked, AllotReserved 5 "Alice" 300%float) /\
  300%float = 300%float.
Proof.
  split; [reflexivity|].
  apply (reservation_costs_default sample_registry "B1" (Some 5) "Alice"
           sample_booked 5 "Alice" 300%float).
  - exact sample_registry_reachable.
  - reflexivity.
Defined.

Lemma getSeat_defined_iff_witness :
  is_Some (getSeat sample_bus 32) /\ ~ is_Some (getSeat sample_bus 33).
Proof.
  destruct (getSeat_defined_iff sample_bus 32 Bus_new_grid_ok) as [_ H32].
  destruct (getSeat_defined_iff sample_bus 33 Bus_new_grid_ok) as [H33 _].
  split.
  - apply H32. unfold seat_number. lia.
  - intros H. apply H33 in H. unfold seat_number in H. lia.
Defined.

Lemma show_prints_every_seat_witness :
  exists view,
    show sample_bus_booked = Some view /\
    view_seats view !! 4%nat = Some (mkSeatLine 5 "Alice" 300%float) /\
    0 <= view_empty view <= 32.
Proof.
  destruct (show_prints_every_seat sample_booked sample_bus_booked 5
              (mkSeat "Alice" 300%float))
    as (view & Hshow & _ & _ & _ & _ & _ & _ & _ & Hline & _ & Hcount).
  - exact sample_booked_reachable.
  - left. reflexivity.
  - unfold seat_number. lia.
  - reflexivity.
  - exists view. split; [exact Hshow|]. split; [exact Hline | exact Hcount].
Defined.

Lemma allotment_lowers_empty_count_witness :
  exists view view',
    show sample_bus = Some view /\
    view_empty view' = view_empty view - 1.
Proof.
  destruct (allotment_lowers_empty_count sample_registry "B1" sample_bus 5
              (mkSeat "Empty" 300%float) "Alice")
    as (bl' & b' & view & view' & _ & _ & Hshow & _ & Hcount).
  - exact sample_registry_reachable.
  - exact sample_registry_resolves.
  - unfold seat_number. lia.
  - reflexivity.
  - reflexivity.
  - unfold cancels. intros [H|H]; discriminate H.
  - discriminate.
  - exists view, view'. split; [exact Hshow | exact Hcount].
Defined.

Lemma cancelSeat_raises_empty_count_witness :
  exists view view',
    show sample_bus_booked = Some view /\
    view_empty view' = view_empty view + 1.
Proof.
  destruct (cancelSeat_raises_empty_count sample_booked "B1" sample_bus_booked 5
              (mkSeat "Alice" 300%float) "y"%char)
    as (bl' & b' & view & view' & _ & _ & Hshow & _ & Hcount).
  - exact sample_booked_reachable.
  - exact sample_booked_resolves.
  - unfold seat_number. lia.
  - reflexivity.
  - unfold vacant. discriminate.
  - reflexivity.
  - exists view, view'. split; [exact Hshow | exact Hcount].
Defined.

Lemma main_show_resolved_witness :
  exists view,
    main_show sample_booked "B1" = Some (Some view) /\ view_busNumber view = "B1".
Proof.
  destruct (main_show_resolved sample_booked "B1" sample_bus_booked)
    as (view & Hshow & _ & Hnum).
  - exact sample_booked_reachable.
  - exact sample_booked_resolves.
  - exists view. split; [exact Hshow | exact Hnum].
Defined.

Lemma showAllBuses_lists_every_bus_witness :
  showAllBuses sample_fleet =
    Listing [mkBasicView "B1" "Ravi" "10:00" "18:00" "Delhi -> Agra";
             mkBasicView "B2" "Asha" "09:00" "21:00" "Pune -> Goa"].
Proof.
  rewrite (showAllBuses_lists_every_bus sample_fleet sample_fleet_reachable).
  reflexivity.
Defined.

Lemma search_message_witness :
  searchBusesByRoute sample_fleet "Pune" "" = SearchCancelled /\
  searchBusesByRoute sample_fleet "Pune" "Agra" = SearchNoMatch "Pune" "Agra".
Proof.
  destruct (search_message sample_fleet "Pune" "") as [Hcancel _]; [discriminate|].
  destruct (search_message sample_fleet "Pune" "Agra") as [_ Hrun]; [discriminate|].
  split.
  - apply Hcancel. right. left. reflexivity.
  - rewrite Hrun.
    + reflexivity.
    + unfold cancels. intros [H|H]; discriminate H.
    + unfold cancels. intros [H|H]; discriminate H.
Defined.

Lemma no_double_booking_witness :
  exists busList1,
    allotment sample_registry "B1" (Some 5) "Alice" =
      Some (busList1, AllotReserved 5 "Alice" 300%float) /\
    allotment busList1 "B1" (Some 5) "Bob" =
      Some (busList1, AllotAlreadyReserved "Alice").
Proof.
  apply (no_double_booking sample_registry "B1" sample_bus 5
           (mkSeat "Empty" 300%float) "Alice" "Bob").
  - exact sample_registry_reachable.
  - exact sample_registry_resolves.
  - unfold seat_number. lia.
  - reflexivity.
  - reflexivity.
  - unfold cancels. intros [H|H]; discriminate H.
  - discriminate.
Defined.

Lemma cancelSeat_then_allotment_witness :
  exists busList1 busList2 b2,
    cancelSeat sample_booked "B1" (Some 5) "y" = Some (busList1, CancelDone 5) /\
    allotment busList1 "B1" (Some 5) "Bob" =
      Some (busList2, AllotReserved 5 "Bob" 300%float) /\
    resolves busList2 "B1" b2 /\
    getSeat b2 5 = Some (mkSeat "Bob" 300%float).
Proof.
  apply (cancelSeat_then_allotment sample_booked "B1" sample_bus_booked 5
           (mkSeat "Alice" 300%float) "y"%char "Bob").
  - exact sample_booked_reachable.
  - exact sample_booked_resolves.
  - unfold seat_number. lia.
  - reflexivity.
  - unfold vacant. discriminate.
  - reflexivity.
  - unfold cancels. intros [H|H]; discriminate H.
Defined.
